(** * Oulu-Aurora: the aggregation, scoring and notification pipeline

    A shallow embedding of [scripts/fetch_aurora_data.py] and the
    properties of its readers, its indicator and its notification gate.

    Python values are modelled as follows.
    - [float] is IEEE 754 binary64.  The data type is the Standard
      Library's [spec_float]; every arithmetic operation returns the
      exact rational result rounded to nearest, ties to even, and is
      compared with the operations of [SpecFloat] on sample operands
      ([arithmetic_agrees_on_samples]).
    - [int] is [Z]; a variable that holds an [int] or a [float] has the
      sum type [num], and comparisons between the two are exact.
    - decoded JSON is the inductive [json]; a [dict] is an association
      list in key order.
    - an exception is a value of [exn]; code that can raise returns a
      [result]; [try ... except Exception] is [try_except].
    - the outside world (HTTP answers, environment variables, clocks) is
      the record [world]; file writes, the lines the notification gate
      logs and the outbound POST are the [event]s of a run.
    - [float(s)] on a string is the interpreter's parser and stays a
      parameter ([float_of_str]) of the section [Program]. *)

From Stdlib Require Import ZArith QArith Qround Qabs Lia Lqa List String Ascii Bool.
From Stdlib Require Import DecimalString.
From Stdlib Require Import Floats.SpecFloat.
Import ListNotations.
Open Scope Z_scope.

(* ================================================================= *)
(** ** Binary64 floating point *)

Definition float := spec_float.

(** The exact value of a finite float ([0] for the others). *)
Definition F2Q (f : float) : Q :=
  match f with
  | S754_finite s m e =>
      let n := if s then Zneg m else Zpos m in
      match e with
      | Z0 => n # 1
      | Zpos p => (n * 2 ^ Zpos p) # 1
      | Zneg p => n # (2 ^ p)%positive
      end
  | _ => 0%Q
  end.

(** Round to the nearest integer, ties to the even one. *)
Definition rne (x : Q) : Z :=
  let f := Qfloor x in
  match Qcompare (x - inject_Z f) (1 # 2) with
  | Lt => f
  | Gt => f + 1
  | Eq => if Z.even f then f else f + 1
  end.

(** Every finite binary64 value is a multiple of [2^-1074]; a magnitude
    is rounded in these units.  [shift_of X] is the exponent of the last
    place of [X]: [0] in the subnormal range and the first binade, and
    [log2 X - 52] above. *)
Definition units : Z := 2 ^ 1074.

Definition shift_of (X : Q) : Z := Z.max 0 (Z.log2 (Qfloor X) - 52).

Definition round_units (X : Q) : Z :=
  rne (X / inject_Z (2 ^ shift_of X)) * 2 ^ shift_of X.

(** The float of sign [s] and magnitude [K * 2^-1074]; magnitudes from
    [2^1024] on overflow to infinity. *)
Definition of_units (s : bool) (K : Z) : float :=
  match K with
  | Zpos _ =>
      if 2 ^ 2098 <=? K then S754_infinity s
      else
        let sh := Z.max 0 (Z.log2 K - 52) in
        match K / 2 ^ sh with
        | Zpos m => S754_finite s m (sh - 1074)
        | _ => S754_zero s
        end
  | _ => S754_zero s
  end.

(** [fl_round zs x]: the binary64 nearest to [x]; an exact zero takes the
    sign [zs], a result that underflows to zero keeps the sign of [x]. *)
Definition fl_round (zs : bool) (x : Q) : float :=
  match Qcompare x 0 with
  | Eq => S754_zero zs
  | Gt => of_units false (round_units (x * inject_Z units))
  | Lt => of_units true (round_units (- x * inject_Z units))
  end.

Definition fl_opp (x : float) : float := SFopp x.

Definition fl_mul (x y : float) : float :=
  match x, y with
  | S754_nan, _ | _, S754_nan => S754_nan
  | S754_infinity _, S754_zero _ | S754_zero _, S754_infinity _ => S754_nan
  | S754_infinity sx, S754_infinity sy
  | S754_infinity sx, S754_finite sy _ _
  | S754_finite sx _ _, S754_infinity sy => S754_infinity (xorb sx sy)
  | S754_zero sx, S754_zero sy
  | S754_zero sx, S754_finite sy _ _
  | S754_finite sx _ _, S754_zero sy => S754_zero (xorb sx sy)
  | S754_finite sx _ _, S754_finite sy _ _ =>
      fl_round (xorb sx sy) (F2Q x * F2Q y)
  end.

Definition fl_div (x y : float) : float :=
  match x, y with
  | S754_nan, _ | _, S754_nan => S754_nan
  | S754_infinity _, S754_infinity _ | S754_zero _, S754_zero _ => S754_nan
  | S754_infinity sx, S754_zero sy
  | S754_infinity sx, S754_finite sy _ _
  | S754_finite sx _ _, S754_zero sy => S754_infinity (xorb sx sy)
  | S754_zero sx, S754_infinity sy
  | S754_zero sx, S754_finite sy _ _
  | S754_finite sx _ _, S754_infinity sy => S754_zero (xorb sx sy)
  | S754_finite sx _ _, S754_finite sy _ _ =>
      fl_round (xorb sx sy) (F2Q x / F2Q y)
  end.

Definition fl_add (x y : float) : float :=
  match x, y with
  | S754_nan, _ | _, S754_nan => S754_nan
  | S754_infinity sx, S754_infinity sy =>
      if Bool.eqb sx sy then x else S754_nan
  | S754_infinity _, _ => x
  | _, S754_infinity _ => y
  | S754_zero sx, S754_zero sy => S754_zero (sx && sy)
  | S754_zero _, S754_finite _ _ _ => y
  | S754_finite _ _ _, S754_zero _ => x
  | S754_finite _ _ _, S754_finite _ _ _ => fl_round false (F2Q x + F2Q y)
  end.

Definition fl_sub (x y : float) : float := fl_add x (fl_opp y).

(** [float(n)] for an integer that does not overflow. *)
Definition fl_of_Z (z : Z) : float := fl_round false (inject_Z z).

Definition fl_finite (f : float) : bool :=
  match f with
  | S754_zero _ | S754_finite _ _ _ => true
  | _ => false
  end.

Definition fl_is_nan (f : float) : bool :=
  match f with S754_nan => true | _ => false end.

Definition fl_sign (f : float) : bool :=
  match f with
  | S754_zero s | S754_infinity s | S754_finite s _ _ => s
  | S754_nan => false
  end.

(** The values a binary64 can hold: 53 bits of mantissa, exponent of the
    last place between [-1074] and [971]. *)
Definition fl_bounded (f : float) : bool :=
  match f with
  | S754_finite _ m e => (Zpos m <? 2 ^ 53) && (-1074 <=? e) && (e <=? 971)
  | _ => true
  end.

(** Extended reals order every number that is not a NaN. *)
Inductive ereal : Type :=
| NegInf
| Fin (q : Q)
| PosInf.

Definition ereal_compare (a b : ereal) : comparison :=
  match a, b with
  | NegInf, NegInf => Eq
  | NegInf, _ => Lt
  | _, NegInf => Gt
  | PosInf, PosInf => Eq
  | PosInf, _ => Gt
  | _, PosInf => Lt
  | Fin x, Fin y => Qcompare x y
  end.

Definition fl_val (f : float) : option ereal :=
  match f with
  | S754_nan => None
  | S754_infinity s => Some (if s then NegInf else PosInf)
  | _ => Some (Fin (F2Q f))
  end.

(* ================================================================= *)
(** ** Python numbers *)

Inductive num : Type :=
| PyInt (z : Z)
| PyFloat (f : float).

Definition num_val (n : num) : option ereal :=
  match n with
  | PyInt z => Some (Fin (inject_Z z))
  | PyFloat f => fl_val f
  end.

(** Comparisons between [int] and [float] are exact; every comparison
    with a NaN is false. *)
Definition num_cmp (a b : num) : option comparison :=
  match num_val a, num_val b with
  | Some x, Some y => Some (ereal_compare x y)
  | _, _ => None
  end.

Definition py_lt (a b : num) : bool :=
  match num_cmp a b with Some Lt => true | _ => false end.

Definition py_gt (a b : num) : bool :=
  match num_cmp a b with Some Gt => true | _ => false end.

Definition py_le (a b : num) : bool :=
  match num_cmp a b with Some Lt | Some Eq => true | _ => false end.

Definition py_ge (a b : num) : bool :=
  match num_cmp a b with Some Gt | Some Eq => true | _ => false end.

Definition py_eq (a b : num) : bool :=
  match num_cmp a b with Some Eq => true | _ => false end.

(** [min(a, b)] and [max(a, b)]: the first argument is kept unless the
    second is strictly smaller (greater). *)
Definition py_min2 (a b : num) : num := if py_lt b a then b else a.
Definition py_max2 (a b : num) : num := if py_gt b a then b else a.

(** [round(x, 1)] on a float: the exact value is rounded half-even to a
    multiple of one tenth, and the binary64 nearest to that decimal is
    returned with the sign of [x]; zeros, infinities and NaN round to
    themselves. *)
Definition fl_round1 (f : float) : float :=
  match f with
  | S754_finite s _ _ =>
      let n := rne (Qabs (F2Q f) * 10) in
      let r := fl_round false (inject_Z n / 10) in
      if s then fl_opp r else r
  | _ => f
  end.

(** [round(x, 1)]: an [int] is returned unchanged. *)
Definition py_round1 (x : num) : num :=
  match x with
  | PyInt z => PyInt z
  | PyFloat f => PyFloat (fl_round1 f)
  end.

(* ================================================================= *)
(** ** Text *)

Open Scope string_scope.

Definition string_of_Z (z : Z) : string := NilZero.string_of_int (Z.to_int z).

Fixpoint zeros (n : nat) : string :=
  match n with
  | O => ""
  | S k => "0" ++ zeros k
  end.

(** Decimal digits of [z >= 0], filled with zeros on the left up to [w]. *)
Definition pad_zeros (w : nat) (z : Z) : string :=
  let s := string_of_Z z in
  zeros (w - String.length s) ++ s.

(** [format(x, ".<d>f")]: the exact value rounded half-even to [d]
    decimals. *)
Definition fmt_fixed (d : nat) (f : float) : string :=
  match f with
  | S754_nan => "nan"
  | S754_infinity s => if s then "-inf" else "inf"
  | _ =>
      let scale := 10 ^ Z.of_nat d in
      let n := rne (Qabs (F2Q f) * inject_Z scale) in
      (if fl_sign f then "-" else "")
        ++ string_of_Z (n / scale)
        ++ match d with
           | O => ""
           | _ => "." ++ pad_zeros d (n mod scale)
           end
  end.

(** An [int] is converted to [float] before it is formatted. *)
Definition fmt_fixed_num (d : nat) (x : num) : string :=
  match x with
  | PyInt z => fmt_fixed d (fl_of_Z z)
  | PyFloat f => fmt_fixed d f
  end.

(** A [datetime] in the fixed zone UTC+2 ([FINNISH_TZ]).  Two datetimes of
    the same zone compare by their fields, most significant first. *)
Record datetime : Type := mk_datetime {
  year : Z; month : Z; day : Z;
  hour : Z; minute : Z; second : Z; microsecond : Z
}.

Definition datetime_key (d : datetime) : list Z :=
  [year d; month d; day d; hour d; minute d; second d; microsecond d].

Fixpoint lex_compare (a b : list Z) : comparison :=
  match a, b with
  | x :: a', y :: b' =>
      match Z.compare x y with
      | Eq => lex_compare a' b'
      | c => c
      end
  | [], [] => Eq
  | [], _ :: _ => Lt
  | _ :: _, [] => Gt
  end.

Definition datetime_compare (a b : datetime) : comparison :=
  lex_compare (datetime_key a) (datetime_key b).

Definition datetime_lt (a b : datetime) : bool :=
  match datetime_compare a b with Lt => true | _ => false end.

Definition datetime_gt (a b : datetime) : bool :=
  match datetime_compare a b with Gt => true | _ => false end.

(** [str(dt)]: ISO format with a space, the microseconds when they are
    not zero, and the offset of the zone. *)
Definition datetime_str (d : datetime) : string :=
  pad_zeros 4 (year d) ++ "-" ++ pad_zeros 2 (month d) ++ "-" ++ pad_zeros 2 (day d)
    ++ " " ++ pad_zeros 2 (hour d) ++ ":" ++ pad_zeros 2 (minute d)
    ++ ":" ++ pad_zeros 2 (second d)
    ++ (if (microsecond d =? 0)%Z then "" else "." ++ pad_zeros 6 (microsecond d))
    ++ "+02:00".

(* ================================================================= *)
(** ** Exceptions *)

Inductive exn : Type :=
| URLError
| HTTPError            (* a subclass of URLError *)
| JSONDecodeError
| UnicodeDecodeError
| TimeoutError
| ConnectionResetError
| IncompleteRead
| TypeError
| ValueError
| KeyError
| IndexError
| AttributeError
| OverflowError.

Inductive result (A : Type) : Type :=
| Ok (a : A)
| Raise (e : exn).

Arguments Ok {A} a.
Arguments Raise {A} e.

Definition bind {A B : Type} (r : result A) (k : A -> result B) : result B :=
  match r with
  | Ok a => k a
  | Raise e => Raise e
  end.

Notation "x <- c ;; k" := (bind c (fun x => k))
  (at level 61, c at next level, right associativity).

Notation "' pat <- c ;; k" := (bind c (fun x => match x with pat => k end))
  (at level 61, pat pattern, c at next level, right associativity).

(** [try: body  except Exception: handler]: every exception of [exn] is
    an [Exception]. *)
Definition try_except {A : Type} (body : result A) (handler : exn -> result A)
  : result A :=
  match body with
  | Ok a => Ok a
  | Raise e => handler e
  end.

(** The classes named by [except (urllib.error.URLError,
    json.JSONDecodeError)]. *)
Definition is_URLError_or_JSONDecodeError (e : exn) : bool :=
  match e with
  | URLError | HTTPError | JSONDecodeError => true
  | _ => false
  end.

Definition is_URLError (e : exn) : bool :=
  match e with
  | URLError | HTTPError => true
  | _ => false
  end.

Definition exn_name (e : exn) : string :=
  match e with
  | URLError => "URLError"
  | HTTPError => "HTTPError"
  | JSONDecodeError => "JSONDecodeError"
  | UnicodeDecodeError => "UnicodeDecodeError"
  | TimeoutError => "TimeoutError"
  | ConnectionResetError => "ConnectionResetError"
  | IncompleteRead => "IncompleteRead"
  | TypeError => "TypeError"
  | ValueError => "ValueError"
  | KeyError => "KeyError"
  | IndexError => "IndexError"
  | AttributeError => "AttributeError"
  | OverflowError => "OverflowError"
  end.

(* ================================================================= *)
(** ** Decoded JSON *)

#[local] Set Warnings "-register-all".

(** What [json.loads] returns: [None], [bool], [int], [float], [str],
    [list] and [dict] with string keys. *)
Inductive json : Type :=
| JNull
| JBool (b : bool)
| JInt (z : Z)
| JFloat (f : float)
| JStr (s : string)
| JArr (items : list json)
| JObj (fields : list (string * json)).

Definition is_None (v : json) : bool :=
  match v with JNull => true | _ => false end.

Fixpoint assoc (k : string) (fields : list (string * json)) : option json :=
  match fields with
  | [] => None
  | (k', v) :: rest => if String.eqb k k' then Some v else assoc k rest
  end.

(** [v.get(key, default)]: only a [dict] has the method. *)
Definition py_get (v : json) (key : string) (default : json) : result json :=
  match v with
  | JObj fields =>
      Ok match assoc key fields with Some x => x | None => default end
  | _ => Raise AttributeError
  end.

Fixpoint chars (s : string) : list json :=
  match s with
  | EmptyString => []
  | String c rest => JStr (String c EmptyString) :: chars rest
  end.

(** [v[i]] for an index [i >= 0]. *)
Definition py_getitem (v : json) (i : nat) : result json :=
  match v with
  | JArr items =>
      match nth_error items i with Some x => Ok x | None => Raise IndexError end
  | JStr s =>
      match nth_error (chars s) i with Some x => Ok x | None => Raise IndexError end
  | JObj _ => Raise KeyError       (* the keys of a decoded object are strings *)
  | _ => Raise TypeError
  end.

(** [v[1:]].  Slicing a [dict] raises ([TypeError] up to Python 3.11,
    [KeyError] from 3.12 on); both are caught alike by the caller. *)
Definition py_slice_from1 (v : json) : result json :=
  match v with
  | JArr items => Ok (JArr (tl items))
  | JStr s => Ok (JStr match s with EmptyString => "" | String _ r => r end)
  | _ => Raise TypeError
  end.

Definition py_len (v : json) : result nat :=
  match v with
  | JArr items => Ok (List.length items)
  | JStr s => Ok (String.length s)
  | JObj fields => Ok (List.length fields)
  | _ => Raise TypeError
  end.

(** The items a [for] loop visits. *)
Definition py_iter (v : json) : result (list json) :=
  match v with
  | JArr items => Ok items
  | JStr s => Ok (chars s)
  | JObj fields => Ok (map (fun kv => JStr (fst kv)) fields)
  | _ => Raise TypeError
  end.

Definition py_truthy (v : json) : bool :=
  match v with
  | JNull => false
  | JBool b => b
  | JInt z => negb (z =? 0)%Z
  | JFloat f => match f with S754_zero _ => false | _ => true end
  | JStr s => negb (String.eqb s "")
  | JArr items => match items with [] => false | _ => true end
  | JObj fields => match fields with [] => false | _ => true end
  end.

(** The numeric view of a value ([bool] is a subclass of [int]). *)
Definition num_of_json (v : json) : option num :=
  match v with
  | JBool b => Some (PyInt (if b then 1 else 0))
  | JInt z => Some (PyInt z)
  | JFloat f => Some (PyFloat f)
  | _ => None
  end.

(** [v == n] for an [int] [n]: never raises. *)
Definition py_eq_int (v : json) (n : Z) : bool :=
  match num_of_json v with
  | Some x => py_eq x (PyInt n)
  | None => false
  end.

(** [n <= v] and [v <= n] for an [int] [n]: ordering an [int] against
    anything but a number raises [TypeError]. *)
Definition py_int_le (n : Z) (v : json) : result bool :=
  match num_of_json v with
  | Some x => Ok (py_le (PyInt n) x)
  | None => Raise TypeError
  end.

Definition py_le_int (v : json) (n : Z) : result bool :=
  match num_of_json v with
  | Some x => Ok (py_le x (PyInt n))
  | None => Raise TypeError
  end.

(** [lo <= v <= hi]: the second comparison is evaluated only when the
    first holds. *)
Definition py_between (lo : Z) (v : json) (hi : Z) : result bool :=
  b <- py_int_le lo v ;;
  if b then py_le_int v hi else Ok false.

Definition py_str_eq (v : json) (s : string) : bool :=
  match v with
  | JStr t => String.eqb t s
  | _ => false
  end.

(** [round(x)] on a float: an [int], ties to even. *)
Definition py_round (f : float) : result Z :=
  match f with
  | S754_nan => Raise ValueError
  | S754_infinity _ => Raise OverflowError
  | _ => Ok (rne (F2Q f))
  end.

(** [sum(values)] starts from the [int] [0] and adds from left to right.
    (From Python 3.12 on [sum] compensates the rounding of the partial
    sums; the two agree whenever the partial sums are exact, as they are
    for the integer values of the grid.) *)
Definition py_sum (values : list float) : float :=
  fold_left fl_add values (S754_zero false).

Definition fl_one : float := fl_of_Z 1.

(* ================================================================= *)
(** ** The outside world and the effects of a run *)

(** The four endpoints; the cloud forecast is asked for a coordinate. *)
Inductive url : Type :=
| MET_URL (lat lon : float)
| OVATION_URL
| KP_FORECAST_URL
| SOLAR_WIND_URL.

(** What the POST to the notification service does: a response with a
    status, or an exception. *)
Inductive post_outcome : Type :=
| PostStatus (status : Z)
| PostRaises (e : exn).

(** [http_get u] is what lines 30-32 of [fetch_json] do for [u]: the
    request, the read of the body, its decoding as UTF-8 and
    [json.loads] give the decoded payload or raise.  [time_time] is
    [int(time.time())], [datetime_now] is [datetime.now(FINNISH_TZ)]. *)
Record world : Type := mk_world {
  http_get : url -> result json;
  http_post : post_outcome;
  environ : string -> option string;
  time_time : Z;
  datetime_now : datetime
}.

(** The observable effects.  [Log] carries the lines the notification
    gate prints; the progress lines of [main] and of the readers are
    console output only and are left out. *)
Inductive event : Type :=
| Log (line : string)
| MakeDirs (path : string)
| WriteFile (path : string) (content : json)
| HttpPost (target : string) (form : list (string * string)).

Record args : Type := mk_args {
  arg_location : string;
  arg_lat : float;
  arg_lon : float;
  arg_output : string;
  arg_badges : bool;
  arg_notify_start : option datetime;
  arg_notify_end : option datetime
}.

(* ================================================================= *)
(** ** The program *)

(** In the concrete runs below no string is ever given to [float]; a
    parser that accepts none stands for it there. *)
Definition reject_all : string -> option float := fun _ => None.

Section Program.

(** [float(s)] on a [str] is the interpreter's own parser: the float it
    reads, or nothing when it raises [ValueError]. *)
Variable float_of_str : string -> option float.

(** [float(v)]. *)
Definition py_float (v : json) : result float :=
  match v with
  | JBool b => Ok (fl_of_Z (if b then 1 else 0))
  | JInt z =>
      if fl_finite (fl_of_Z z) then Ok (fl_of_Z z) else Raise OverflowError
  | JFloat f => Ok f
  | JStr s =>
      match float_of_str s with
      | Some f => Ok f
      | None => Raise ValueError
      end
  | JNull | JArr _ | JObj _ => Raise TypeError
  end.

(** [float(v) if v is not None else None]. *)
Definition py_float_opt (v : json) : result (option float) :=
  if is_None v then Ok None else (f <- py_float v ;; Ok (Some f)).

Definition fetch_json (w : world) (u : url) : result json :=
  match http_get w u with
  | Ok data => Ok data
  | Raise e => if is_URLError_or_JSONDecodeError e then Ok JNull else Raise e
  end.

Definition fetch_cloud_coverage (w : world) (lat lon : float)
  : result (option float) :=
  data <- fetch_json w (MET_URL lat lon) ;;
  if is_None data then Ok None
  else
    try_except
      (props <- py_get data "properties" (JObj []) ;;
       timeseries <- py_get props "timeseries" (JArr []) ;;
       if py_truthy timeseries then
         first <- py_getitem timeseries 0 ;;
         d <- py_get first "data" (JObj []) ;;
         instant <- py_get d "instant" (JObj []) ;;
         instant_data <- py_get instant "details" (JObj []) ;;
         cloud_coverage <- py_get instant_data "cloud_area_fraction" JNull ;;
         py_float_opt cloud_coverage
       else Ok None)
      (fun _ => Ok None).

(** The body of the loop over the grid: the state is the point value
    found so far and the regional values collected so far. *)
Fixpoint ovation_loop (target_lat target_lon : Z) (coordinates : list json)
    (point_probability : option float) (regional_values : list float)
  : result (option float * list float) :=
  match coordinates with
  | [] => Ok (point_probability, regional_values)
  | coord :: rest =>
      coord_lon <- py_getitem coord 0 ;;
      coord_lat <- py_getitem coord 1 ;;
      aurora <- py_getitem coord 2 ;;
      point' <-
        (if py_eq_int coord_lat target_lat && py_eq_int coord_lon target_lon
         then (f <- py_float aurora ;; Ok (Some f))
         else Ok point_probability) ;;
      in_lon <- py_between (target_lon - 1) coord_lon (target_lon + 1) ;;
      in_region <-
        (if in_lon then py_between (target_lat - 1) coord_lat (target_lat + 1)
         else Ok false) ;;
      regional' <-
        (if in_region then (f <- py_float aurora ;; Ok (regional_values ++ [f])%list)
         else Ok regional_values) ;;
      ovation_loop target_lat target_lon rest point' regional'
  end.

(** [round(sum(values) / len(values), 1)], or [None] for no value. *)
Definition regional_average (regional_values : list float) : option float :=
  match regional_values with
  | [] => None
  | _ =>
      Some (fl_round1 (fl_div (py_sum regional_values)
                              (fl_of_Z (Z.of_nat (List.length regional_values)))))
  end.

Definition parse_ovation (data : json) (lat lon : float)
  : result (option float * option float) :=
  coordinates <- py_get data "coordinates" (JArr []) ;;
  target_lat <- py_round lat ;;
  target_lon <- py_round lon ;;
  items <- py_iter coordinates ;;
  '(point_probability, regional_values) <-
     ovation_loop target_lat target_lon items None [] ;;
  Ok (point_probability, regional_average regional_values).

Definition fetch_ovation_data (w : world) (lat lon : float)
  : result (option float * option float) :=
  data <- fetch_json w OVATION_URL ;;
  if is_None data then Ok (None, None)
  else try_except (parse_ovation data lat lon) (fun _ => Ok (None, None)).

(** The scan for the last row tagged ["observed"]: [i] is the index of
    the head of [rows], [last] the index found so far. *)
Fixpoint kp_scan (rows : list json) (i : nat) (last : option nat)
  : result (option nat) :=
  match rows with
  | [] => Ok last
  | row :: rest =>
      n <- py_len row ;;
      hit <-
        (if (3 <=? n)%nat then (tag <- py_getitem row 2 ;; Ok (py_str_eq tag "observed"))
         else Ok false) ;;
      kp_scan rest (S i) (if hit then Some i else last)
  end.

(** [float(rows[i][1])]. *)
Definition kp_value (rows : json) (i : nat) : result float :=
  row <- py_getitem rows i ;;
  kp <- py_getitem row 1 ;;
  py_float kp.

Definition parse_kp (data : json)
  : result (option float * option float * option float) :=
  rows <- py_slice_from1 data ;;
  items <- py_iter rows ;;
  last_observed_idx <- kp_scan items 0 None ;;
  match last_observed_idx with
  | None => Ok (None, None, None)
  | Some idx =>
      current_kp <- kp_value rows idx ;;
      n <- py_len rows ;;
      kp_3h <-
        (if (idx + 1 <? n)%nat then (f <- kp_value rows (idx + 1) ;; Ok (Some f))
         else Ok None) ;;
      kp_6h <-
        (if (idx + 2 <? n)%nat then (f <- kp_value rows (idx + 2) ;; Ok (Some f))
         else Ok None) ;;
      Ok (Some current_kp, kp_3h, kp_6h)
  end.

Definition fetch_kp_indices (w : world)
  : result (option float * option float * option float) :=
  data <- fetch_json w KP_FORECAST_URL ;;
  if is_None data then Ok (None, None, None)
  else try_except (parse_kp data) (fun _ => Ok (None, None, None)).

Definition fetch_solar_wind (w : world) : result (option float * option float) :=
  data <- fetch_json w SOLAR_WIND_URL ;;
  if is_None data then Ok (None, None)
  else
    try_except
      (bz <- py_get data "Bz" JNull ;;
       bt <- py_get data "Bt" JNull ;;
       bz' <- py_float_opt bz ;;
       bt' <- py_float_opt bt ;;
       Ok (bz', bt'))
      (fun _ => Ok (None, None)).

(** The literal [0.0], and the [int] literals of the indicator as they
    enter float arithmetic. *)
Definition fl_zero : float := S754_zero false.

Definition calculate_aurora_indicator (aurora_probability clouds : option float)
  : num :=
  match aurora_probability with
  | None => PyFloat fl_zero
  | Some p =>
      let visibility :=
        match clouds with
        | None => fl_one
        | Some c =>
            if py_le (PyFloat c) (PyInt 50) then fl_one
            else fl_div (fl_sub (fl_of_Z 100) c) (fl_of_Z 50)
        end in
      let indicator := fl_mul p visibility in
      py_round1 (py_max2 (PyInt 0) (py_min2 (PyInt 100) (PyFloat indicator)))
  end.

Definition calculate_traffic_light (aurora_indicator : num) : string :=
  if py_ge aurora_indicator (PyInt 50) then "red"
  else if py_ge aurora_indicator (PyInt 25) then "yellow"
  else if py_ge aurora_indicator (PyInt 10) then "green"
  else "black".

Definition generate_badge (label message color : string) : json :=
  JObj [("schemaVersion", JInt 1);
        ("label", JStr label);
        ("message", JStr message);
        ("color", JStr color)].

Definition recommendation_messages : list (string * string) :=
  [("red", "Pretty sure");
   ("yellow", "Worth checking");
   ("green", "Probably not");
   ("black", "Definitely not")].

Fixpoint lookup (k : string) (table : list (string * string)) : option string :=
  match table with
  | [] => None
  | (k', v) :: rest => if String.eqb k k' then Some v else lookup k rest
  end.

Definition get_recommendation_badge (traffic_light : string) : json :=
  generate_badge
    "Current Status"
    match lookup traffic_light recommendation_messages with
    | Some m => m
    | None => "Unknown"
    end
    (if negb (String.eqb traffic_light "black") then traffic_light else "gray").

Definition get_aurora_probability_badge (probability : option float) : json :=
  match probability with
  | None => generate_badge "Aurora Probability" "N/A" "gray"
  | Some p =>
      let color :=
        if py_ge (PyFloat p) (PyInt 50) then "red"
        else if py_ge (PyFloat p) (PyInt 25) then "yellow"
        else if py_ge (PyFloat p) (PyInt 10) then "green"
        else "gray" in
      generate_badge "Aurora Probability" (fmt_fixed 0 p ++ "%") color
  end.

Definition get_cloud_coverage_badge (clouds : option float) : json :=
  match clouds with
  | None => generate_badge "Cloud Coverage" "N/A" "gray"
  | Some c =>
      let color :=
        if py_le (PyFloat c) (PyInt 25) then "red"
        else if py_le (PyFloat c) (PyInt 50) then "yellow"
        else if py_le (PyFloat c) (PyInt 75) then "green"
        else "gray" in
      generate_badge "Cloud Coverage" (fmt_fixed 0 c ++ "%") color
  end.

Definition get_kp_index_badge (kp : option float) : json :=
  match kp with
  | None => generate_badge "KP Index" "N/A" "gray"
  | Some k =>
      let color :=
        if py_ge (PyFloat k) (PyInt 5) then "red"
        else if py_ge (PyFloat k) (PyInt 3) then "yellow"
        else if py_ge (PyFloat k) (PyInt 2) then "green"
        else "gray" in
      generate_badge "KP Index" (fmt_fixed 1 k) color
  end.

Definition get_bz_badge (bz : option float) : json :=
  match bz with
  | None => generate_badge "Bz" "N/A" "gray"
  | Some b =>
      let color :=
        if py_le (PyFloat b) (PyInt (-10)) then "red"
        else if py_le (PyFloat b) (PyInt (-5)) then "yellow"
        else if py_lt (PyFloat b) (PyInt 0) then "green"
        else "gray" in
      generate_badge "Bz" (fmt_fixed 1 b ++ " nT") color
  end.

Definition get_bt_badge (bt : option float) : json :=
  match bt with
  | None => generate_badge "Bt" "N/A" "gray"
  | Some b =>
      let color :=
        if py_ge (PyFloat b) (PyInt 20) then "red"
        else if py_ge (PyFloat b) (PyInt 10) then "yellow"
        else if py_ge (PyFloat b) (PyInt 5) then "green"
        else "gray" in
      generate_badge "Bt" (fmt_fixed 1 b ++ " nT") color
  end.

Definition write_badges (traffic_light : string)
    (aurora_prob clouds kp bz bt : option float) : list event :=
  let badges :=
    [("recommendation", get_recommendation_badge traffic_light);
     ("aurora-probability", get_aurora_probability_badge aurora_prob);
     ("cloud-coverage", get_cloud_coverage_badge clouds);
     ("kp-index", get_kp_index_badge kp);
     ("bz", get_bz_badge bz);
     ("bt", get_bt_badge bt)] in
  MakeDirs "badges"
    :: map (fun nb => WriteFile ("badges/" ++ fst nb ++ ".json") (snd nb)) badges.

(** The truth value of [os.environ.get(name)]: unset and empty are both
    false. *)
Definition env_truthy (v : option string) : bool :=
  match v with
  | Some s => negb (String.eqb s "")
  | None => false
  end.

Definition env_text (v : option string) : string :=
  match v with
  | Some s => s
  | None => ""
  end.

Definition is_some {A : Type} (o : option A) : bool :=
  match o with Some _ => true | None => false end.

Definition msg_not_on_actions : string :=
  "  Skipping Pushover notification (not running on GitHub Actions)".
Definition msg_no_credentials : string :=
  "  Skipping Pushover notification (credentials not configured)".
Definition msg_before_window (start : datetime) : string :=
  "  Skipping Pushover notification (before window: " ++ datetime_str start ++ ")".
Definition msg_after_window (stop : datetime) : string :=
  "  Skipping Pushover notification (after window: " ++ datetime_str stop ++ ")".
Definition msg_below_yellow : string :=
  "  Skipping Pushover notification (indicator below yellow)".

(** The check of the time window (lines 380-387): the line of the skip,
    or nothing when the run may go on. *)
Definition window_skip (now : datetime) (notify_start notify_end : option datetime)
  : option string :=
  if is_some notify_start || is_some notify_end then
    match notify_start with
    | Some s =>
        if datetime_lt now s then Some (msg_before_window s)
        else
          match notify_end with
          | Some e => if datetime_gt now e then Some (msg_after_window e) else None
          | None => None
          end
    | None =>
        match notify_end with
        | Some e => if datetime_gt now e then Some (msg_after_window e) else None
        | None => None
        end
    end
  else None.

Definition pushover_endpoint : string := "https://api.pushover.net/1/messages.json".

Definition opt_percent (v : option float) : string :=
  match v with
  | Some x => fmt_fixed 0 x ++ "%"
  | None => "N/A"
  end.

Definition newline : string := String (ascii_of_nat 10) EmptyString.

Definition notification_title (location_name : string) (indicator : num) : string :=
  "Aurora in " ++ location_name ++ " • " ++ fmt_fixed_num 0 indicator ++ "% Chance".

Definition notification_message (aurora_prob clouds : option float) : string :=
  "NOAA Probability: " ++ opt_percent aurora_prob ++ newline
    ++ "Cloud Coverage: " ++ opt_percent clouds.

(** The run of the gate: its events and what it returns or raises. *)
Definition send_pushover_notification (w : world) (location_name : string)
    (indicator : num) (aurora_prob clouds : option float) (traffic_light : string)
    (notify_start notify_end : option datetime) : list event * result bool :=
  if negb (env_truthy (environ w "GITHUB_ACTIONS")) then
    ([Log msg_not_on_actions], Ok false)
  else
    let pushover_token := environ w "PUSHOVER_TOKEN" in
    let pushover_user := environ w "PUSHOVER_USER" in
    if negb (env_truthy pushover_token) || negb (env_truthy pushover_user) then
      ([Log msg_no_credentials], Ok false)
    else
      match window_skip (datetime_now w) notify_start notify_end with
      | Some line => ([Log line], Ok false)
      | None =>
          if negb (String.eqb traffic_light "yellow" || String.eqb traffic_light "red")
          then ([Log msg_below_yellow], Ok false)
          else
            let form :=
              [("token", env_text pushover_token);
               ("user", env_text pushover_user);
               ("title", notification_title location_name indicator);
               ("message", notification_message aurora_prob clouds)] in
            let post := HttpPost pushover_endpoint form in
            match http_post w with
            | PostStatus status =>
                if (status =? 200)%Z then
                  ([post; Log "  Pushover notification sent successfully"], Ok true)
                else
                  ([post; Log ("  Pushover notification failed: HTTP "
                                 ++ string_of_Z status)], Ok false)
            | PostRaises e =>
                if is_URLError e then
                  ([post; Log ("  Pushover notification failed: " ++ exn_name e)],
                   Ok false)
                else ([post], Raise e)
            end
      end.

Definition json_of_opt_float (v : option float) : json :=
  match v with
  | Some f => JFloat f
  | None => JNull
  end.

Definition json_of_num (x : num) : json :=
  match x with
  | PyInt z => JInt z
  | PyFloat f => JFloat f
  end.

(** [main], after the arguments are parsed. *)
Definition main (a : args) (w : world) : list event * result unit :=
  match fetch_cloud_coverage w (arg_lat a) (arg_lon a) with
  | Raise e => ([], Raise e)
  | Ok clouds =>
  match fetch_ovation_data w (arg_lat a) (arg_lon a) with
  | Raise e => ([], Raise e)
  | Ok (aurora_point, aurora_region) =>
  match fetch_kp_indices w with
  | Raise e => ([], Raise e)
  | Ok (kp_observed, kp_3h, kp_6h) =>
  match fetch_solar_wind w with
  | Raise e => ([], Raise e)
  | Ok (bz, bt) =>
      let indicator := calculate_aurora_indicator aurora_point clouds in
      let traffic_light := calculate_traffic_light indicator in
      let output :=
        JObj [("last-update", JInt (time_time w));
              ("cloud-coverage", json_of_opt_float clouds);
              ("aurora-probability", json_of_opt_float aurora_point);
              ("aurora-probability-region", json_of_opt_float aurora_region);
              ("kp-index", json_of_opt_float kp_observed);
              ("kp-index-3h", json_of_opt_float kp_3h);
              ("kp-index-6h", json_of_opt_float kp_6h);
              ("bz", json_of_opt_float bz);
              ("bt", json_of_opt_float bt);
              ("aurora-indicator", json_of_num indicator);
              ("aurora-traffic-light", JStr traffic_light)] in
      let written := [WriteFile (arg_output a) output] in
      let badges :=
        if arg_badges a
        then write_badges traffic_light aurora_point clouds kp_observed bz bt
        else [] in
      let '(sent, r) :=
        send_pushover_notification w (arg_location a) indicator aurora_point clouds
          traffic_light (arg_notify_start a) (arg_notify_end a) in
      ((written ++ badges ++ sent)%list,
       match r with
       | Ok _ => Ok tt
       | Raise e => Raise e
       end)
  end end end end.

(* ================================================================= *)
(** ** Definitions used by the statements and the proofs *)

(** *** Rounding and order *)

(** The number of units [2^-1074], with its sign, that [fl_round] gives
    to a rational before overflow is decided. *)
Definition round_signed (x : Q) : Z :=
  match Qcompare x 0 with
  | Eq => 0
  | Gt => round_units (x * inject_Z units)
  | Lt => - round_units (- x * inject_Z units)
  end.

(** The first power of two above every finite binary64. *)
Definition big : Q := inject_Z (2 ^ 1024).

(** A rational that orders the floats: the value of a finite float, and
    [big] and its opposite for the infinities. *)
Definition key (f : float) : Q :=
  match f with
  | S754_infinity s => if s then (- big)%Q else big
  | _ => F2Q f
  end.

Definition nkey (n : num) : Q :=
  match n with
  | PyInt z => inject_Z z
  | PyFloat f => key f
  end.

(** A float is tame when it is not NaN and its finite value lies
    strictly inside the binary64 range. *)
Definition tame (f : float) : Prop :=
  fl_is_nan f = false /\ (- big < F2Q f < big)%Q.

Definition ntame (n : num) : Prop :=
  match n with
  | PyInt z => (- big < inject_Z z < big)%Q
  | PyFloat f => tame f
  end.

(** The largest finite binary64, and a bound below the overflow
    threshold of the rounding. *)
Definition max_float : Z := (2 ^ 53 - 1) * 2 ^ 971.
Definition safe_bound : Q := inject_Z (max_float + 2 ^ 969).

(** *** The indicator as the specification words it *)

(** The visibility multiplier: 1.0 when the coverage is absent or at
    most 50, else [(100 - coverage) / 50]. *)
Definition visibility_multiplier (clouds : option float) : float :=
  match clouds with
  | None => fl_one
  | Some c =>
      if py_le (PyFloat c) (PyInt 50) then fl_one
      else fl_div (fl_sub (fl_of_Z 100) c) (fl_of_Z 50)
  end.

(** The last line of [calculate_aurora_indicator], as a function of the
    product. *)
Definition clamp_round (r : float) : num :=
  py_round1 (py_max2 (PyInt 0) (py_min2 (PyInt 100) (PyFloat r))).

(** A probability between 0 and 100, as Python compares it. *)
Definition prob_in_range (p : float) : Prop :=
  py_le (PyInt 0) (PyFloat p) = true /\ py_le (PyFloat p) (PyInt 100) = true.

(** A finite binary64 value. *)
Definition finite_binary64 (c : float) : Prop :=
  fl_finite c = true /\ fl_bounded c = true.

(** A coverage that is absent, or any binary64 but plus infinity. *)
Definition coverage_ok (c : option float) : Prop :=
  match c with
  | None => True
  | Some c => fl_bounded c = true /\ c <> S754_infinity false
  end.

(** [x] clamped to the interval from 0 to 100. *)
Definition clamp_0_100 (x : float) : float :=
  if py_lt (PyFloat x) (PyInt 0) then fl_zero
  else if py_gt (PyFloat x) (PyInt 100) then fl_of_Z 100
  else x.

(** The product of the probability and the multiplier, clamped and
    rounded to one decimal. *)
Definition score_spec (p : float) (clouds : option float) : float :=
  fl_round1 (clamp_0_100 (fl_mul p (visibility_multiplier clouds))).

(** *** The K-index table as the specification reads it *)

(** A row of the table: a time, a Kp value that [float] accepts, a tag,
    and possibly more columns. *)
Definition table_row (row : json) : Prop :=
  exists t kp tag rest f, row = JArr (t :: kp :: tag :: rest) /\ py_float kp = Ok f.

Definition is_array (v : json) : Prop := exists items, v = JArr items.

(** The row is tagged ["observed"]. *)
Definition observed (row : json) : bool :=
  match row with
  | JArr (_ :: _ :: tag :: _) => py_str_eq tag "observed"
  | _ => false
  end.

(** The index of the last row tagged ["observed"]. *)
Fixpoint last_observed (rows : list json) : option nat :=
  match rows with
  | [] => None
  | row :: rest =>
      match last_observed rest with
      | Some i => Some (S i)
      | None => if observed row then Some O else None
      end
  end.

(** The Kp value of the row at position [i], absent when there is no
    such row. *)
Definition kp_at (rows : list json) (i : nat) : option float :=
  match nth_error rows i with
  | Some (JArr (_ :: kp :: _)) =>
      match py_float kp with
      | Ok f => Some f
      | Raise _ => None
      end
  | _ => None
  end.

(** Current, 3-hour and 6-hour values: the last observed row and the
    rows one and two positions after it. *)
Definition kp_spec (rows : list json) : option float * option float * option float :=
  match last_observed rows with
  | None => (None, None, None)
  | Some i => (kp_at rows i, kp_at rows (i + 1), kp_at rows (i + 2))
  end.

(** The rows of the worked example, after a header. *)
Definition example_kp_rows : list json :=
  [JArr [JStr "t0"; JInt 3; JStr "observed"];
   JArr [JStr "t1"; JInt 4; JStr "observed"];
   JArr [JStr "t2"; JInt 5; JStr "forecast"];
   JArr [JStr "t3"; JInt 6; JStr "forecast"]].

(** *** The aurora grid as the specification reads it *)

(** A cell of the grid: longitude, latitude and value. *)
Definition cell : Type := (num * num * float)%type.

Definition cell_value (c : cell) : float := snd c.

(** A grid entry is a triple of two numbers and a value that [float]
    accepts (more entries may follow). *)
Definition decode_cell (coord : json) : option cell :=
  match coord with
  | JArr (lon :: lat :: v :: _) =>
      match num_of_json lon, num_of_json lat, py_float v with
      | Some x, Some y, Ok f => Some (x, y, f)
      | _, _, _ => None
      end
  | _ => None
  end.

Fixpoint decode_grid (coords : list json) : option (list cell) :=
  match coords with
  | [] => Some []
  | coord :: rest =>
      match decode_cell coord, decode_grid rest with
      | Some c, Some cs => Some (c :: cs)
      | _, _ => None
      end
  end.

(** The cell lies on the rounded target. *)
Definition at_target (target_lat target_lon : Z) (c : cell) : bool :=
  let '(lon, lat, _) := c in
  py_eq lat (PyInt target_lat) && py_eq lon (PyInt target_lon).

(** The cell lies within one degree of the rounded target, bounds
    included, in longitude and in latitude. *)
Definition in_window (target_lat target_lon : Z) (c : cell) : bool :=
  let '(lon, lat, _) := c in
  py_le (PyInt (target_lon - 1)) lon && py_le lon (PyInt (target_lon + 1))
  && (py_le (PyInt (target_lat - 1)) lat && py_le lat (PyInt (target_lat + 1))).

(** The value of the cell on the target; of the last one when several
    cells lie on it. *)
Fixpoint exact_match (target_lat target_lon : Z) (cells : list cell) : option float :=
  match cells with
  | [] => None
  | c :: rest =>
      match exact_match target_lat target_lon rest with
      | Some v => Some v
      | None => if at_target target_lat target_lon c then Some (cell_value c) else None
      end
  end.

(** The arithmetic mean rounded to one decimal; absent for no value. *)
Definition rounded_mean (values : list float) : option float :=
  match values with
  | [] => None
  | _ =>
      Some (fl_round1 (fl_div (py_sum values)
                              (fl_of_Z (Z.of_nat (List.length values)))))
  end.

Definition ovation_spec (lat lon : float) (cells : list cell)
  : option float * option float :=
  let target_lat := rne (F2Q lat) in
  let target_lon := rne (F2Q lon) in
  (exact_match target_lat target_lon cells,
   rounded_mean (map cell_value (filter (in_window target_lat target_lon) cells))).

(** The worked example: the target (65.01, 25.47) and three cells. *)
Definition example_lat : float := fl_round false (6501 # 100).
Definition example_lon : float := fl_round false (2547 # 100).
Definition example_grid : list json :=
  [JArr [JInt 25; JInt 65; JInt 40];
   JArr [JInt 24; JInt 65; JInt 30];
   JArr [JInt 26; JInt 64; JInt 20]].
Definition example_cells : list cell :=
  [(PyInt 25, PyInt 65, fl_of_Z 40);
   (PyInt 24, PyInt 65, fl_of_Z 30);
   (PyInt 26, PyInt 64, fl_of_Z 20)].

(** *** The four guards of the notification gate *)

(** The run is in the automated-execution environment. *)
Definition flag_set (w : world) : bool := env_truthy (environ w "GITHUB_ACTIONS").

(** The delivery token and the recipient identifier are both present. *)
Definition credentials_present (w : world) : bool :=
  env_truthy (environ w "PUSHOVER_TOKEN") && env_truthy (environ w "PUSHOVER_USER").

Definition datetime_le (a b : datetime) : bool :=
  match datetime_compare a b with Gt => false | _ => true end.

(** [start <= now <= stop], an absent bound leaving its side open. *)
Definition within_window (now : datetime) (start stop : option datetime) : bool :=
  match start with Some s => datetime_le s now | None => true end
  && match stop with Some e => datetime_le now e | None => true end.

(** The condition class is worth-checking or go-now. *)
Definition class_notifies (traffic_light : string) : bool :=
  String.eqb traffic_light "yellow" || String.eqb traffic_light "red".

Definition is_post (e : event) : bool :=
  match e with HttpPost _ _ => true | _ => false end.

(** The number of outbound sends of a run. *)
Definition posts (trace : list event) : nat := List.length (filter is_post trace).

(** *** The snapshot *)

(** The eleven keys of the primary output, in the order they are
    written. *)
Definition snapshot_keys : list string :=
  ["last-update"; "cloud-coverage"; "aurora-probability";
   "aurora-probability-region"; "kp-index"; "kp-index-3h"; "kp-index-6h";
   "bz"; "bt"; "aurora-indicator"; "aurora-traffic-light"].

(** A fetch that answers, or fails with an exception [fetch_json]
    catches. *)
Definition source_degrades (w : world) (u : url) : Prop :=
  match http_get w u with
  | Ok _ => True
  | Raise e => is_URLError_or_JSONDecodeError e = true
  end.

Definition is_write (e : event) : bool :=
  match e with WriteFile _ _ => true | _ => false end.

(** *** A sample run *)

(** The sample grid and K-index table answer, the cloud forecast and
    the solar wind fail with a caught error; every environment variable
    is set and the notification service answers 200. *)
Definition example_header : json :=
  JArr [JStr "time_tag"; JStr "Kp"; JStr "observed"; JStr "noaa_scale"].

Definition example_world : world :=
  mk_world
    (fun u =>
       match u with
       | OVATION_URL => Ok (JObj [("coordinates", JArr example_grid)])
       | KP_FORECAST_URL => Ok (JArr (example_header :: example_kp_rows))
       | _ => Raise URLError
       end)
    (PostStatus 200)
    (fun _ => Some "set")
    1770000000
    (mk_datetime 2026 2 1 22 0 0 0).

Definition example_args : args :=
  mk_args "Oulu" example_lat example_lon "current_observation_oulu.json" true None None.

(** The same world, but the body of the cloud forecast is not valid
    UTF-8: line 32 raises [UnicodeDecodeError]. *)
Definition undecodable_world : world :=
  mk_world
    (fun u =>
       match u with
       | MET_URL _ _ => Raise UnicodeDecodeError
       | other => http_get example_world other
       end)
    (PostStatus 200)
    (fun _ => Some "set")
    1770000000
    (mk_datetime 2026 2 1 22 0 0 0).

(** The form the sample run posts. *)
Definition example_form : list (string * string) :=
  [("token", "set");
   ("user", "set");
   ("title", notification_title "Oulu" (PyFloat (fl_of_Z 40)));
   ("message", notification_message (Some (fl_of_Z 40)) None)].

(** A table whose observed row is followed by a row without a Kp
    value. *)
Definition partial_kp_rows : list json :=
  [JArr [JStr "t0"; JInt 3; JStr "observed"];
   JArr [JStr "t1"; JNull; JStr "forecast"]].

Definition partial_kp_world : world :=
  mk_world
    (fun u =>
       match u with
       | KP_FORECAST_URL => Ok (JArr (example_header :: partial_kp_rows))
       | _ => Raise URLError
       end)
    (PostStatus 200)
    (fun _ => None)
    1770000000
    (mk_datetime 2026 2 1 22 0 0 0).

(** Pairs of floats on which the arithmetic is compared with the
    Standard Library's [SpecFloat] operations: ordinary values, signed
    zeros, an infinity, NaN, the least subnormal and the largest finite
    value. *)
Definition sample_pairs : list (float * float) :=
  let fifty := fl_of_Z 50 in
  let coverage := fl_round false (617 # 10) in
  let third := fl_round true (- (1 # 3)) in
  let tiny := S754_finite false 1 (-1074) in
  let huge := S754_finite false 9007199254740991 971 in
  [(fifty, coverage); (coverage, third); (third, fifty);
   (S754_zero true, fifty); (fifty, S754_zero true);
   (S754_infinity false, third); (S754_infinity false, S754_zero true);
   (S754_nan, fifty);
   (tiny, third); (tiny, fifty); (huge, huge); (huge, coverage)].

Definition agrees_with_SpecFloat (x y : float) : bool :=
  let same a b :=
    match SFcompare a b, a, b with
    | Some Eq, _, _ => Bool.eqb (fl_sign a) (fl_sign b)
    | None, S754_nan, S754_nan => true
    | _, _, _ => false
    end in
  same (fl_mul x y) (SFmul 53 1024 x y)
  && same (fl_div x y) (SFdiv 53 1024 x y)
  && same (fl_add x y) (SFadd 53 1024 x y)
  && same (fl_sub x y) (SFsub 53 1024 x y).

(** *** Payloads of the other readers *)

(** [d.get(key)]: the value under [key], or [None]. *)
Definition get_or_none (key : string) (fields : list (string * json)) : json :=
  match assoc key fields with
  | Some v => v
  | None => JNull
  end.

(** A grid entry with fewer than three items. *)
Definition short_cell (coord : json) : Prop :=
  exists items, coord = JArr items /\ (List.length items < 3)%nat.

(** A forecast of two entries, 75 percent now and 10 percent later. *)
Definition forecast_entry (fraction : json) : json :=
  JObj [("time", JStr "2026-02-01T20:00:00Z");
        ("data", JObj [("instant",
                        JObj [("details",
                               JObj [("air_temperature", JFloat (fl_of_Z (-12)));
                                     ("cloud_area_fraction", fraction)])])])].

Definition example_forecast : json :=
  JObj [("type", JStr "Feature");
        ("properties",
         JObj [("timeseries",
                JArr [forecast_entry (JInt 75); forecast_entry (JInt 10)])])].

Definition example_solar_wind : json :=
  JObj [("Bt", JStr "6"); ("TimeStamp", JStr "2026-02-01 20:00:00")].

(** Every endpoint answers: the forecast above, the sample grid and
    table, and a solar-wind summary without a [Bz]. *)
Definition answering_world : world :=
  mk_world
    (fun u =>
       match u with
       | MET_URL _ _ => Ok example_forecast
       | OVATION_URL => Ok (JObj [("coordinates", JArr example_grid)])
       | KP_FORECAST_URL => Ok (JArr (example_header :: example_kp_rows))
       | SOLAR_WIND_URL => Ok example_solar_wind
       end)
    (PostStatus 200)
    (fun _ => Some "set")
    1770000000
    (mk_datetime 2026 2 1 22 0 0 0).

(** A parser for the concrete runs that reads the one string ["6"]. *)
Definition reads_six : string -> option float :=
  fun s => if String.eqb s "6" then Some (fl_of_Z 6) else None.

(** The sample grid followed by an entry of two items. *)
Definition broken_grid_world : world :=
  mk_world
    (fun u =>
       match u with
       | OVATION_URL =>
           Ok (JObj [("coordinates",
                      JArr (example_grid ++ [JArr [JInt 27; JInt 66]])%list)])
       | _ => Raise URLError
       end)
    (PostStatus 200)
    (fun _ => Some "set")
    1770000000
    (mk_datetime 2026 2 1 22 0 0 0).

(** *** Orders used by the further properties *)

(** The four condition classes in their order. *)
Definition light_rank (traffic_light : string) : nat :=
  if String.eqb traffic_light "red" then 3
  else if String.eqb traffic_light "yellow" then 2
  else if String.eqb traffic_light "green" then 1
  else 0.

(** The colors a badge may carry. *)
Definition badge_colors : list string := ["red"; "yellow"; "green"; "gray"].

(** *** Further sample worlds *)

(** Every endpoint answers with the same payload. *)
Definition serving (payload : json) : world :=
  mk_world
    (fun _ => Ok payload)
    (PostStatus 200)
    (fun _ => Some "set")
    1770000000
    (mk_datetime 2026 2 1 22 0 0 0).

(** A forecast whose list of entries is empty. *)
Definition empty_forecast : json :=
  JObj [("type", JStr "Feature"); ("properties", JObj [("timeseries", JArr [])])].

(** A forecast whose first entry has a [null] coverage. *)
Definition null_forecast : json :=
  JObj [("properties",
         JObj [("timeseries",
                JArr [forecast_entry JNull; forecast_entry (JInt 10)])])].

(** A solar-wind summary whose [Bz] is not a number. *)
Definition bad_solar_wind : json :=
  JObj [("Bz", JStr "n/a"); ("Bt", JInt 6)].

(** *** Failures and colors *)


(** The color a badge object carries. *)
Definition badge_color (badge : json) : option json :=
  match badge with
  | JObj fields => assoc "color" fields
  | _ => None
  end.

(* ================================================================= *)
(** * Properties *)

(** *** Rounding to nearest, ties to even *)

Lemma rne_bounds (x : Q) : Qfloor x <= rne x <= Qfloor x + 1.
Proof.
  unfold rne. destruct (Qcompare _ _); try destruct (Z.even _); lia.
Qed.

Lemma rne_inject_Z (k : Z) : rne (inject_Z k) = k.
Proof.
  unfold rne. rewrite Qfloor_Z.
  assert (H : (inject_Z k - inject_Z k ?= 1 # 2)%Q = Lt).
  { rewrite <- Qlt_alt. lra. }
  now rewrite H.
Qed.

Lemma rne_mono (x y : Q) : (x <= y)%Q -> rne x <= rne y.
Proof.
  intros Hxy.
  pose proof (Qfloor_resp_le _ _ Hxy) as Hf.
  destruct (Z.eq_dec (Qfloor x) (Qfloor y)) as [E | N].
  - unfold rne. rewrite <- E.
    destruct (Qcompare_spec (x - inject_Z (Qfloor x)) (1 # 2));
      destruct (Qcompare_spec (y - inject_Z (Qfloor x)) (1 # 2));
      try destruct (Z.even (Qfloor x)); try lia; exfalso; lra.
  - pose proof (rne_bounds x). pose proof (rne_bounds y). lia.
Qed.

Lemma rne_le_Z (x : Q) (k : Z) : (x <= inject_Z k)%Q -> rne x <= k.
Proof. intros H. rewrite <- (rne_inject_Z k). now apply rne_mono. Qed.

Lemma rne_ge_Z (x : Q) (k : Z) : (inject_Z k <= x)%Q -> k <= rne x.
Proof. intros H. rewrite <- (rne_inject_Z k). now apply rne_mono. Qed.

#[local] Instance rne_comp : Proper (Qeq ==> eq) rne.
Proof.
  intros x y E. unfold rne.
  assert (Hf : Qfloor x = Qfloor y) by now rewrite E.
  rewrite Hf.
  assert (Hc : (x - inject_Z (Qfloor y) ?= 1 # 2)%Q = (y - inject_Z (Qfloor y) ?= 1 # 2)%Q)
    by now rewrite E.
  now rewrite Hc.
Qed.

Lemma pow2_pos (n : Z) : 0 <= n -> 0 < 2 ^ n.
Proof. intros. apply Z.pow_pos_nonneg; lia. Qed.

Lemma inject_pow2_pos (n : Z) : 0 <= n -> (0 < inject_Z (2 ^ n))%Q.
Proof.
  intros H. change 0%Q with (inject_Z 0). rewrite <- Zlt_Qlt. now apply pow2_pos.
Qed.

Lemma Qdiv_le_mono (x y c : Q) : (0 < c)%Q -> (x <= y)%Q -> (x / c <= y / c)%Q.
Proof.
  intros Hc Hxy. unfold Qdiv. apply Qmult_le_compat_r; [assumption|].
  apply Qlt_le_weak, Qinv_lt_0_compat, Hc.
Qed.

Lemma inject_pow2_div (s t : Z) :
  0 <= s <= t -> (inject_Z (2 ^ t) / inject_Z (2 ^ s) == inject_Z (2 ^ (t - s)))%Q.
Proof.
  intros H. replace t with ((t - s) + s) at 1 by lia.
  rewrite Z.pow_add_r by lia. rewrite inject_Z_mult.
  pose proof (inject_pow2_pos s ltac:(lia)). field. lra.
Qed.

Lemma shift_of_nonneg (X : Q) : 0 <= shift_of X.
Proof. unfold shift_of. lia. Qed.

Lemma shift_of_mono (X Y : Q) : (X <= Y)%Q -> shift_of X <= shift_of Y.
Proof.
  intros H. unfold shift_of.
  pose proof (Z.log2_le_mono _ _ (Qfloor_resp_le _ _ H)). lia.
Qed.

#[local] Instance shift_of_comp : Proper (Qeq ==> eq) shift_of.
Proof. intros x y E. unfold shift_of. now rewrite E. Qed.

#[local] Instance round_units_comp : Proper (Qeq ==> eq) round_units.
Proof.
  intros x y E. unfold round_units. rewrite (shift_of_comp _ _ E).
  f_equal. apply rne_comp. now rewrite E.
Qed.

#[local] Instance fl_round_comp zs : Proper (Qeq ==> eq) (fl_round zs).
Proof.
  intros x y E. unfold fl_round.
  assert (Hc : (x ?= 0)%Q = (y ?= 0)%Q) by now rewrite E.
  rewrite Hc.
  assert (H1 : round_units (x * inject_Z units) = round_units (y * inject_Z units))
    by (apply round_units_comp; now rewrite E).
  assert (H2 : round_units (- x * inject_Z units) = round_units (- y * inject_Z units))
    by (apply round_units_comp; now rewrite E).
  now rewrite H1, H2.
Qed.
(* below the next power of two the rounding stays below it *)
Lemma round_units_le_pow2 (X : Q) (t : Z) :
  shift_of X <= t -> (X <= inject_Z (2 ^ t))%Q -> round_units X <= 2 ^ t.
Proof.
  intros Hs HX. unfold round_units.
  pose proof (shift_of_nonneg X) as H0.
  set (s := shift_of X) in *.
  assert (rne (X / inject_Z (2 ^ s)) <= 2 ^ (t - s)).
  { apply rne_le_Z. rewrite <- inject_pow2_div by lia.
    apply Qdiv_le_mono; [now apply inject_pow2_pos | assumption]. }
  replace (2 ^ t) with (2 ^ (t - s) * 2 ^ s)
    by (rewrite <- Z.pow_add_r by lia; f_equal; lia).
  apply Z.mul_le_mono_nonneg_r; [|assumption].
  apply Z.lt_le_incl, pow2_pos; lia.
Qed.

Lemma round_units_ge_pow2 (X : Q) (t : Z) :
  shift_of X <= t -> (inject_Z (2 ^ t) <= X)%Q -> 2 ^ t <= round_units X.
Proof.
  intros Hs HX. unfold round_units.
  pose proof (shift_of_nonneg X) as H0.
  set (s := shift_of X) in *.
  assert (2 ^ (t - s) <= rne (X / inject_Z (2 ^ s))).
  { apply rne_ge_Z. rewrite <- inject_pow2_div by lia.
    apply Qdiv_le_mono; [now apply inject_pow2_pos | assumption]. }
  replace (2 ^ t) with (2 ^ (t - s) * 2 ^ s)
    by (rewrite <- Z.pow_add_r by lia; f_equal; lia).
  apply Z.mul_le_mono_nonneg_r; [|assumption].
  apply Z.lt_le_incl, pow2_pos; lia.
Qed.

Lemma floor_lt_pow2 (X : Q) (t : Z) :
  0 <= t -> Z.log2 (Qfloor X) < t -> (X <= inject_Z (2 ^ t))%Q.
Proof.
  intros Ht Hl.
  assert (Qfloor X < 2 ^ t).
  { destruct (Z_lt_le_dec 0 (Qfloor X)) as [P | N].
    - apply Z.log2_lt_pow2; assumption.
    - pose proof (pow2_pos t Ht). lia. }
  apply Qlt_le_weak. eapply Qlt_le_trans; [apply Qlt_floor|].
  rewrite <- Zle_Qle. lia.
Qed.

Lemma floor_ge_pow2 (X : Q) (t : Z) :
  0 <= t -> t <= Z.log2 (Qfloor X) -> 0 < Qfloor X -> (inject_Z (2 ^ t) <= X)%Q.
Proof.
  intros Ht Hl Hp.
  eapply Qle_trans; [|apply Qfloor_le].
  rewrite <- Zle_Qle. apply Z.log2_le_pow2; assumption.
Qed.

Lemma round_units_mono (X Y : Q) : (X <= Y)%Q -> round_units X <= round_units Y.
Proof.
  intros H.
  pose proof (shift_of_mono _ _ H) as Hs.
  pose proof (shift_of_nonneg X) as H0.
  destruct (Z.eq_dec (shift_of X) (shift_of Y)) as [E | N].
  - unfold round_units. rewrite <- E.
    apply Z.mul_le_mono_nonneg_r; [apply Z.lt_le_incl, pow2_pos; lia|].
    apply rne_mono, Qdiv_le_mono; [now apply inject_pow2_pos | assumption].
  - assert (Hlt : shift_of X < shift_of Y) by lia.
    assert (HY : shift_of Y = Z.log2 (Qfloor Y) - 52) by (unfold shift_of in *; lia).
    assert (HpY : 0 < Qfloor Y).
    { destruct (Z_lt_le_dec 0 (Qfloor Y)) as [P | Q0]; [assumption|].
      rewrite (Z.log2_nonpos _ Q0) in HY. lia. }
    transitivity (2 ^ (shift_of Y + 52)).
    + apply round_units_le_pow2; [lia|].
      apply floor_lt_pow2; [lia|]. unfold shift_of in Hlt. lia.
    + apply round_units_ge_pow2; [lia|].
      apply floor_ge_pow2; [lia | lia | assumption].
Qed.

Lemma round_units_nonneg (X : Q) : (0 <= X)%Q -> 0 <= round_units X.
Proof.
  intros H. unfold round_units.
  pose proof (shift_of_nonneg X).
  apply Z.mul_nonneg_nonneg; [|apply Z.lt_le_incl, pow2_pos; lia].
  apply (rne_ge_Z _ 0).
  apply Qle_shift_div_l; [apply inject_pow2_pos; lia|].
  change (inject_Z 0) with 0%Q. lra.
Qed.

Lemma round_units_repr (X : Q) :
  (0 <= X)%Q ->
  exists m s, round_units X = m * 2 ^ s /\ 0 <= s /\ 0 <= m <= 2 ^ 53.
Proof.
  intros HX. exists (rne (X / inject_Z (2 ^ shift_of X))), (shift_of X).
  pose proof (shift_of_nonneg X) as H0.
  split; [reflexivity|]. split; [assumption|]. split.
  - apply (rne_ge_Z _ 0).
    apply Qle_shift_div_l; [apply inject_pow2_pos; lia|].
    change (inject_Z 0) with 0%Q. lra.
  - apply rne_le_Z.
    assert (H : (X / inject_Z (2 ^ shift_of X)
                 <= inject_Z (2 ^ (shift_of X + 53)) / inject_Z (2 ^ shift_of X))%Q).
    { apply Qdiv_le_mono; [apply inject_pow2_pos; lia|].
      apply floor_lt_pow2; [lia|]. unfold shift_of. lia. }
    rewrite inject_pow2_div in H by lia.
    now replace (shift_of X + 53 - shift_of X) with 53 in H by lia.
Qed.

Lemma of_units_zero (s : bool) : of_units s 0 = S754_zero s.
Proof. reflexivity. Qed.

Lemma of_units_overflow (s : bool) (K : Z) :
  2 ^ 2098 <= K -> of_units s K = S754_infinity s.
Proof.
  intros H. unfold of_units.
  assert (0 < 2 ^ 2098) by (apply pow2_pos; lia).
  destruct K; try lia.
  destruct (Z.leb_spec (2 ^ 2098) (Z.pos p)); [reflexivity | lia].
Qed.

Lemma of_units_finite (s : bool) (K m0 s0 : Z) :
  K = m0 * 2 ^ s0 -> 0 <= s0 -> 0 < m0 <= 2 ^ 53 -> K < 2 ^ 2098 ->
  exists m e, of_units s K = S754_finite s m e /\ -1074 <= e /\
              Z.pos m * 2 ^ (e + 1074) = K.
Proof.
  intros HK Hs Hm Hlt.
  assert (Hp0 : 0 < 2 ^ s0) by (apply pow2_pos; lia).
  assert (HKpos : 0 < K) by (subst K; apply Z.mul_pos_pos; lia).
  assert (Hlog : Z.log2 K = s0 + Z.log2 m0)
    by (subst K; apply Z.log2_mul_pow2; lia).
  set (sh := Z.max 0 (Z.log2 K - 52)).
  assert (Hq : exists q, K = q * 2 ^ sh /\ 0 < q).
  { destruct (Z.eq_dec m0 (2 ^ 53)) as [E | N].
    - exists (2 ^ 52).
      assert (Hsh : sh = s0 + 1).
      { unfold sh. rewrite Hlog, E, Z.log2_pow2 by lia. lia. }
      rewrite Hsh, HK, E, <- !Z.pow_add_r by lia.
      split; [f_equal; lia | apply pow2_pos; lia].
    - assert (Z.log2 m0 < 53) by (apply Z.log2_lt_pow2; lia).
      assert (Hsh : sh <= s0) by (unfold sh; lia).
      assert (0 <= sh) by (unfold sh; lia).
      exists (m0 * 2 ^ (s0 - sh)). split.
      + rewrite HK, <- Z.mul_assoc, <- Z.pow_add_r by lia.
        do 2 f_equal. lia.
      + apply Z.mul_pos_pos; [lia | apply pow2_pos; lia]. }
  destruct Hq as (q & HKq & Hqpos).
  assert (Hsh0 : 0 <= sh) by (unfold sh; lia).
  assert (Hpsh : 0 < 2 ^ sh) by (apply pow2_pos; lia).
  assert (Hdiv : K / 2 ^ sh = q) by (rewrite HKq; apply Z.div_mul; lia).
  unfold of_units. destruct K as [|p|p]; try lia.
  destruct (Z.leb_spec (2 ^ 2098) (Z.pos p)); [lia|].
  fold sh. rewrite Hdiv.
  destruct q as [|m|m]; try lia.
  exists m, (sh - 1074). split; [reflexivity|]. split; [lia|].
  replace (sh - 1074 + 1074) with sh by lia. now rewrite HKq.
Qed.

Lemma inject_units_pos : (0 < inject_Z units)%Q.
Proof. apply (inject_pow2_pos 1074). lia. Qed.

(** The value of a finite float whose last place is at least [2^-1074],
    in units. *)
Lemma F2Q_units (s : bool) (m : positive) (e : Z) :
  -1074 <= e ->
  (F2Q (S754_finite s m e) * inject_Z units
   == inject_Z (cond_Zopp s (Z.pos m * 2 ^ (e + 1074))))%Q.
Proof.
  intros He.
  assert (Hn : (if s then Z.neg m else Z.pos m) = cond_Zopp s (Z.pos m))
    by (destruct s; reflexivity).
  assert (Hc : forall a b, cond_Zopp s (a * b) = cond_Zopp s a * b)
    by (intros; destruct s; simpl; lia).
  unfold F2Q. rewrite Hn, Hc. set (n := cond_Zopp s (Z.pos m)).
  unfold units. destruct e as [|p|p].
  - unfold Qeq. cbn [Qmult Qnum Qden inject_Z]. rewrite Z.add_0_l. lia.
  - unfold Qeq. cbn [Qmult Qnum Qden inject_Z].
    rewrite Z.pow_add_r by lia. lia.
  - unfold Qeq. cbn [Qmult Qnum Qden inject_Z].
    rewrite Pos.mul_1_r, Pos2Z.inj_pow.
    replace 1074 with ((Z.neg p + 1074) + Z.pos p) at 1 by lia.
    rewrite Z.pow_add_r by lia. lia.
Qed.

(** *** Rounding a signed rational *)

Lemma scale_nonneg (x : Q) : (0 <= x)%Q -> (0 <= x * inject_Z units)%Q.
Proof.
  intros H. apply Qmult_le_0_compat; [assumption|].
  apply Qlt_le_weak, inject_units_pos.
Qed.

Lemma scale_mono (x y : Q) :
  (x <= y)%Q -> (x * inject_Z units <= y * inject_Z units)%Q.
Proof.
  intros H. apply Qmult_le_compat_r; [assumption|].
  apply Qlt_le_weak, inject_units_pos.
Qed.

Lemma round_signed_mono (x y : Q) :
  (x <= y)%Q -> round_signed x <= round_signed y.
Proof.
  intros H. unfold round_signed.
  destruct (Qcompare_spec x 0) as [Ex | Lx | Gx];
    destruct (Qcompare_spec y 0) as [Ey | Ly | Gy]; try lia; try (exfalso; lra).
  - apply round_units_nonneg, scale_nonneg. lra.
  - assert (0 <= round_units (- x * inject_Z units))
      by (apply round_units_nonneg, scale_nonneg; lra).
    lia.
  - assert (round_units (- y * inject_Z units) <= round_units (- x * inject_Z units))
      by (apply round_units_mono, scale_mono; lra).
    lia.
  - assert (0 <= round_units (- x * inject_Z units))
      by (apply round_units_nonneg, scale_nonneg; lra).
    assert (0 <= round_units (y * inject_Z units))
      by (apply round_units_nonneg, scale_nonneg; lra).
    lia.
  - apply round_units_mono, scale_mono. assumption.
Qed.

Lemma of_units_val (s : bool) (X : Q) :
  (0 <= X)%Q ->
  let R := round_units X in
  (2 ^ 2098 <= R /\ of_units s R = S754_infinity s)
  \/ (0 <= R < 2 ^ 2098 /\ fl_finite (of_units s R) = true
      /\ (F2Q (of_units s R) * inject_Z units == inject_Z (cond_Zopp s R))%Q).
Proof.
  intros HX R.
  destruct (Z_le_gt_dec (2 ^ 2098) R) as [Hov | Hfin].
  - left. split; [assumption | now apply of_units_overflow].
  - right. destruct (round_units_repr X HX) as (m & s0 & HR & Hs0 & Hm).
    fold R in HR.
    assert (0 <= R) by (apply round_units_nonneg; assumption).
    split; [lia|].
    destruct (Z.eq_dec m 0) as [E | N].
    + assert (HR0 : R = 0) by (rewrite HR, E; lia).
      rewrite HR0, of_units_zero. split; [reflexivity|].
      destruct s; reflexivity.
    + destruct (of_units_finite s R m s0 HR Hs0 ltac:(lia) ltac:(lia))
        as (m' & e' & Hof & He' & Hval).
      rewrite Hof. split; [reflexivity|].
      rewrite F2Q_units by assumption. now rewrite Hval.
Qed.

(** What [fl_round] returns, in terms of the signed number of units. *)
Lemma fl_round_val (zs : bool) (x : Q) :
  let K := round_signed x in
  (2 ^ 2098 <= K /\ fl_round zs x = S754_infinity false)
  \/ (K <= - 2 ^ 2098 /\ fl_round zs x = S754_infinity true)
  \/ (- 2 ^ 2098 < K < 2 ^ 2098 /\ fl_finite (fl_round zs x) = true
      /\ (F2Q (fl_round zs x) * inject_Z units == inject_Z K)%Q).
Proof.
  intros K. subst K. unfold round_signed, fl_round.
  assert (0 < 2 ^ 2098) by (apply pow2_pos; lia).
  destruct (Qcompare_spec x 0) as [E | L | G].
  - right. right. split; [lia|]. split; [reflexivity|]. reflexivity.
  - destruct (of_units_val true (- x * inject_Z units)) as [[Ho Hi] | (Hr & Hf & Hv)].
    + apply scale_nonneg. lra.
    + right. left. split; [lia | assumption].
    + right. right. split; [lia|]. split; [assumption|].
      rewrite Hv. reflexivity.
  - destruct (of_units_val false (x * inject_Z units)) as [[Ho Hi] | (Hr & Hf & Hv)].
    + apply scale_nonneg. lra.
    + left. split; [lia | assumption].
    + right. right. split; [lia|]. split; [assumption|].
      rewrite Hv. reflexivity.
Qed.

(** *** Ordering floats that are not NaN by a rational key *)

Lemma big_pos : (0 < big)%Q.
Proof. apply (inject_pow2_pos 1024). lia. Qed.

Lemma big_units : (big * inject_Z units == inject_Z (2 ^ 2098))%Q.
Proof.
  unfold big, units. rewrite <- inject_Z_mult, <- Z.pow_add_r by lia. reflexivity.
Qed.

Lemma num_cmp_key (a b : num) :
  ntame a -> ntame b -> num_cmp a b = Some (Qcompare (nkey a) (nkey b)).
Proof.
  pose proof big_pos as Hb.
  assert (Lt_alt : forall x y : Q, (x < y)%Q -> (x ?= y)%Q = Lt)
    by (intros; now apply Qlt_alt).
  assert (Gt_alt : forall x y : Q, (y < x)%Q -> (x ?= y)%Q = Gt)
    by (intros; now apply Qgt_alt).
  assert (Eq_alt : forall x : Q, (x ?= x)%Q = Eq)
    by (intros; now apply Qeq_alt).
  unfold num_cmp.
  destruct a as [za | [sa | sa | | sa ma ea]], b as [zb | [sb | sb | | sb mb eb]];
    unfold ntame, tame; cbn [num_val fl_val nkey key fl_is_nan ereal_compare];
    intros Ha Hb'; try (destruct Ha; discriminate); try (destruct Hb'; discriminate);
    try reflexivity;
    try destruct sa; try destruct sb; cbn [ereal_compare]; f_equal; symmetry;
    try (apply Eq_alt); try (apply Lt_alt; lra); try (apply Gt_alt; lra).
Qed.

Lemma fl_round_tame (zs : bool) (x : Q) : tame (fl_round zs x).
Proof.
  pose proof big_pos as Hb. pose proof inject_units_pos as Hu.
  destruct (fl_round_val zs x) as [[_ H] | [[_ H] | (HK & Hf & Hv)]].
  - rewrite H. split; [reflexivity|]. cbn [F2Q]. lra.
  - rewrite H. split; [reflexivity|]. cbn [F2Q]. lra.
  - split; [destruct (fl_round zs x); try discriminate; reflexivity|].
    assert (H1 : (inject_Z (round_signed x) < inject_Z (2 ^ 2098))%Q)
      by (rewrite <- Zlt_Qlt; lia).
    assert (H2 : (inject_Z (- 2 ^ 2098) < inject_Z (round_signed x))%Q)
      by (rewrite <- Zlt_Qlt; lia).
    rewrite inject_Z_opp in H2.
    rewrite <- Hv, <- big_units in *.
    split.
    + apply Qmult_lt_r with (z := inject_Z units); [assumption|].
      setoid_replace (- big * inject_Z units)%Q with (- (big * inject_Z units))%Q by ring.
      assumption.
    + apply Qmult_lt_r with (z := inject_Z units); assumption.
Qed.

Lemma fl_round_key_mono (z1 z2 : bool) (x y : Q) :
  (x <= y)%Q -> (key (fl_round z1 x) <= key (fl_round z2 y))%Q.
Proof.
  intros Hxy.
  pose proof (round_signed_mono x y Hxy) as HK.
  pose proof big_pos as Hb. pose proof inject_units_pos as Hu.
  pose proof (fl_round_tame z1 x) as [_ Tx].
  pose proof (fl_round_tame z2 y) as [_ Ty].
  assert (0 < 2 ^ 2098) by (apply pow2_pos; lia).
  destruct (fl_round_val z1 x) as [[Kx Hx] | [[Kx Hx] | (Kx & Fx & Vx)]];
    destruct (fl_round_val z2 y) as [[Ky Hy] | [[Ky Hy] | (Ky & Fy & Vy)]];
    try lia.
  - rewrite Hx, Hy. cbn [key]. lra.
  - rewrite Hx, Hy. cbn [key]. lra.
  - rewrite Hx, Hy. cbn [key]. lra.
  - rewrite Hx. cbn [key].
    destruct (fl_round z2 y); try discriminate; cbn [key]; lra.
  - rewrite Hy. cbn [key].
    destruct (fl_round z1 x); try discriminate; cbn [key]; lra.
  - assert (Hle : (F2Q (fl_round z1 x) * inject_Z units
                   <= F2Q (fl_round z2 y) * inject_Z units)%Q)
      by (rewrite Vx, Vy, <- Zle_Qle; assumption).
    apply Qmult_le_r in Hle; [|assumption].
    destruct (fl_round z1 x); try discriminate;
      destruct (fl_round z2 y); try discriminate; cbn [key]; exact Hle.
Qed.

Lemma py_le_key (a b : num) :
  ntame a -> ntame b -> (py_le a b = true <-> (nkey a <= nkey b)%Q).
Proof.
  intros Ha Hb. unfold py_le. rewrite (num_cmp_key a b Ha Hb).
  destruct (Qcompare_spec (nkey a) (nkey b)); split; intros; try lra; try reflexivity;
    discriminate.
Qed.

Lemma py_lt_key (a b : num) :
  ntame a -> ntame b -> (py_lt a b = true <-> (nkey a < nkey b)%Q).
Proof.
  intros Ha Hb. unfold py_lt. rewrite (num_cmp_key a b Ha Hb).
  destruct (Qcompare_spec (nkey a) (nkey b)); split; intros; try lra; try reflexivity;
    discriminate.
Qed.

Lemma py_gt_key (a b : num) :
  ntame a -> ntame b -> (py_gt a b = true <-> (nkey b < nkey a)%Q).
Proof.
  intros Ha Hb. unfold py_gt. rewrite (num_cmp_key a b Ha Hb).
  destruct (Qcompare_spec (nkey a) (nkey b)); split; intros; try lra; try reflexivity;
    discriminate.
Qed.

Lemma py_eq_key (a b : num) :
  ntame a -> ntame b -> (py_eq a b = true <-> (nkey a == nkey b)%Q).
Proof.
  intros Ha Hb. unfold py_eq. rewrite (num_cmp_key a b Ha Hb).
  destruct (Qcompare_spec (nkey a) (nkey b)); split; intros; try lra; try reflexivity;
    discriminate.
Qed.

Lemma py_lt_false_key (a b : num) :
  ntame a -> ntame b -> (py_lt a b = false <-> (nkey b <= nkey a)%Q).
Proof.
  intros Ha Hb. pose proof (py_lt_key a b Ha Hb) as H.
  destruct (py_lt a b); split; intros; try reflexivity; try discriminate.
  - destruct H as [H _]. specialize (H eq_refl). lra.
  - destruct (Qlt_le_dec (nkey a) (nkey b)) as [L | G]; [|assumption].
    apply H in L. discriminate.
Qed.

Lemma py_gt_false_key (a b : num) :
  ntame a -> ntame b -> (py_gt a b = false <-> (nkey a <= nkey b)%Q).
Proof.
  intros Ha Hb. pose proof (py_gt_key a b Ha Hb) as H.
  destruct (py_gt a b); split; intros; try reflexivity; try discriminate.
  - destruct H as [H _]. specialize (H eq_refl). lra.
  - destruct (Qlt_le_dec (nkey b) (nkey a)) as [L | G]; [|assumption].
    apply H in L. discriminate.
Qed.

Lemma py_le_false_key (a b : num) :
  ntame a -> ntame b -> (py_le a b = false <-> (nkey b < nkey a)%Q).
Proof.
  intros Ha Hb. pose proof (py_le_key a b Ha Hb) as H.
  destruct (py_le a b); split; intros; try reflexivity; try discriminate.
  - destruct H as [H _]. specialize (H eq_refl). lra.
  - destruct (Qlt_le_dec (nkey b) (nkey a)) as [L | G]; [assumption|].
    apply H in G. discriminate.
Qed.

Lemma ntame_int (z : Z) : - 2 ^ 1024 < z < 2 ^ 1024 -> ntame (PyInt z).
Proof.
  intros [H1 H2]. unfold ntame, big. rewrite <- inject_Z_opp, <- !Zlt_Qlt. lia.
Qed.

Lemma ntame_small (z : Z) : -1000 <= z <= 1000 -> ntame (PyInt z).
Proof.
  intros H. apply ntame_int.
  assert (1000 < 2 ^ 1024) by reflexivity. lia.
Qed.

Lemma finite_key (f : float) : fl_finite f = true -> key f = F2Q f.
Proof. destruct f; try discriminate; reflexivity. Qed.

Lemma finite_tame_iff (f : float) :
  tame f -> (fl_finite f = true <-> (- big < key f < big)%Q).
Proof.
  intros [Hn Hr]. pose proof big_pos.
  destruct f as [s | s | | s m e]; try discriminate; cbn [fl_finite key] in *.
  - split; [intros _; exact Hr | reflexivity].
  - destruct s; split; intros; try discriminate; lra.
  - split; [intros _; exact Hr | reflexivity].
Qed.

(** *** Arithmetic on finite operands is the rounding of the exact result *)

Lemma Qcompare_zero (x : Q) : (x == 0)%Q -> (x ?= 0)%Q = Eq.
Proof. intros H. now apply Qeq_alt. Qed.

Lemma fl_round_zero (zs : bool) (x : Q) : (x == 0)%Q -> fl_round zs x = S754_zero zs.
Proof. intros H. unfold fl_round. now rewrite Qcompare_zero. Qed.

Lemma fl_mul_finite (x y : float) :
  fl_finite x = true -> fl_finite y = true ->
  fl_mul x y = fl_round (xorb (fl_sign x) (fl_sign y)) (F2Q x * F2Q y).
Proof.
  destruct x as [sx | sx | | sx mx ex], y as [sy | sy | | sy my ey];
    try discriminate; intros _ _; cbn [fl_mul fl_sign];
    try reflexivity; symmetry; apply fl_round_zero; cbn [F2Q]; ring.
Qed.

Lemma fl_div_finite (x y : float) (sy : bool) (my : positive) (ey : Z) :
  fl_finite x = true -> y = S754_finite sy my ey ->
  fl_div x y = fl_round (xorb (fl_sign x) sy) (F2Q x / F2Q y).
Proof.
  intros Hx ->. destruct x as [sx | sx | | sx mx ex]; try discriminate;
    cbn [fl_div fl_sign]; reflexivity.
Qed.

Lemma F2Q_opp (x : float) : (F2Q (fl_opp x) == - F2Q x)%Q.
Proof.
  destruct x as [s | s | | s m e]; cbn [fl_opp SFopp F2Q]; try reflexivity.
  destruct s, e; unfold Qeq; cbn [negb Qopp Qnum Qden]; lia.
Qed.

Lemma F2Q_pos (m : positive) (e : Z) : (0 < F2Q (S754_finite false m e))%Q.
Proof.
  cbn [F2Q]. destruct e as [|p|p]; unfold Qlt; cbn [Qnum Qden];
    try (pose proof (pow2_pos (Z.pos p) ltac:(lia))); lia.
Qed.

Lemma F2Q_neg (m : positive) (e : Z) : (F2Q (S754_finite true m e) < 0)%Q.
Proof.
  cbn [F2Q]. destruct e as [|p|p]; unfold Qlt; cbn [Qnum Qden];
    try (pose proof (pow2_pos (Z.pos p) ltac:(lia))); lia.
Qed.

(** *** The literals of the indicator *)

Lemma fl_100 : fl_of_Z 100 = S754_finite false 7036874417766400 (-46).
Proof. vm_compute. reflexivity. Qed.

Lemma fl_50 : fl_of_Z 50 = S754_finite false 7036874417766400 (-47).
Proof. vm_compute. reflexivity. Qed.

Lemma fl_1 : fl_one = S754_finite false 4503599627370496 (-52).
Proof. vm_compute. reflexivity. Qed.

Lemma key_fl_100 : (key (fl_of_Z 100) == 100)%Q.
Proof. rewrite fl_100. reflexivity. Qed.

Lemma key_fl_50 : (key (fl_of_Z 50) == 50)%Q.
Proof. rewrite fl_50. reflexivity. Qed.

Lemma key_fl_1 : (key fl_one == 1)%Q.
Proof. rewrite fl_1. reflexivity. Qed.

Lemma safe_bound_rounds_up : (key (fl_round false safe_bound) < big)%Q.
Proof. vm_compute. reflexivity. Qed.

Lemma safe_bound_rounds_down : (- big < key (fl_round false (- safe_bound)))%Q.
Proof. vm_compute. reflexivity. Qed.

Lemma fl_round_finite (zs : bool) (x : Q) :
  (- safe_bound <= x <= safe_bound)%Q -> fl_finite (fl_round zs x) = true.
Proof.
  intros [Hl Hu]. apply finite_tame_iff; [apply fl_round_tame|].
  pose proof (fl_round_key_mono zs false _ _ Hu).
  pose proof (fl_round_key_mono false zs _ _ Hl).
  pose proof safe_bound_rounds_up. pose proof safe_bound_rounds_down.
  lra.
Qed.

Lemma max_float_safe : (inject_Z max_float + 100 <= safe_bound)%Q.
Proof. vm_compute. discriminate. Qed.

Lemma big_safe : (big <= 50 * safe_bound)%Q.
Proof. vm_compute. discriminate. Qed.

Lemma bounded_range (f : float) :
  fl_bounded f = true ->
  (- inject_Z max_float <= F2Q f <= inject_Z max_float)%Q.
Proof.
  assert (HM : 0 <= max_float) by (vm_compute; discriminate).
  destruct f as [s | s | | s m e]; cbn [fl_bounded F2Q]; intros Hb;
    try (rewrite <- inject_Z_opp; change 0%Q with (inject_Z 0);
         rewrite <- !Zle_Qle; lia).
  apply andb_prop in Hb. destruct Hb as [Hb He2].
  apply andb_prop in Hb. destruct Hb as [Hm He1].
  apply Z.ltb_lt in Hm. apply Z.leb_le in He1, He2.
  assert (Hmag : Z.pos m * 2 ^ Z.max 0 e <= max_float).
  { unfold max_float.
    apply Z.mul_le_mono_nonneg;
      [lia | lia | apply Z.lt_le_incl, pow2_pos; lia | apply Z.pow_le_mono_r; lia]. }
  assert (Hp : forall p, 0 < 2 ^ Z.pos p) by (intros; apply pow2_pos; lia).
  destruct e as [|p|p].
  - rewrite Z.max_l, Z.mul_1_r in Hmag by lia.
    unfold Qle; cbn [Qnum Qden Qopp inject_Z]. destruct s; lia.
  - rewrite Z.max_r in Hmag by lia.
    unfold Qle; cbn [Qnum Qden Qopp inject_Z]. destruct s; lia.
  - rewrite Z.max_l, Z.mul_1_r in Hmag by lia.
    unfold Qle; cbn [Qnum Qden Qopp inject_Z].
    rewrite Pos2Z.inj_pow. specialize (Hp p).
    destruct s; nia.
Qed.

(** *** The clamp and the rounding to one decimal *)

Lemma indicator_unfold (p : float) (c : option float) :
  calculate_aurora_indicator (Some p) c
  = clamp_round (fl_mul p (visibility_multiplier c)).
Proof. reflexivity. Qed.

Lemma clamp_round_nan : clamp_round S754_nan = PyInt 100.
Proof. reflexivity. Qed.

Lemma clamp_round_cases (r : float) :
  tame r ->
  ((100 <= key r)%Q /\ clamp_round r = PyInt 100)
  \/ ((key r <= 0)%Q /\ clamp_round r = PyInt 0)
  \/ ((0 < key r < 100)%Q /\ clamp_round r = PyFloat (fl_round1 r)).
Proof.
  intros Hr. unfold clamp_round, py_min2.
  assert (T0 : ntame (PyInt 0)) by (apply ntame_small; lia).
  assert (T100 : ntame (PyInt 100)) by (apply ntame_small; lia).
  destruct (py_lt (PyFloat r) (PyInt 100)) eqn:E1.
  - apply py_lt_key in E1; [|assumption..]. cbn [nkey] in E1.
    unfold py_max2. destruct (py_gt (PyFloat r) (PyInt 0)) eqn:E2.
    + apply py_gt_key in E2; [|assumption..]. cbn [nkey] in E2.
      right. right. split; [|reflexivity]. split; assumption.
    + apply py_gt_false_key in E2; [|assumption..]. cbn [nkey] in E2.
      right. left. split; [assumption | reflexivity].
  - apply py_lt_false_key in E1; [|assumption..]. cbn [nkey] in E1.
    left. split; [assumption | reflexivity].
Qed.

Lemma big_gt_100 : (100 < big)%Q.
Proof. vm_compute. reflexivity. Qed.

Lemma fl_round1_pos (r : float) :
  tame r -> (0 < key r < 100)%Q ->
  fl_round1 r = fl_round false (inject_Z (rne (key r * 10)) / 10).
Proof.
  intros [Hn Hr] [H0 H100]. pose proof big_gt_100.
  destruct r as [s | s | | s m e]; cbn [key] in *; try discriminate.
  - exfalso. destruct s; lra.
  - destruct s.
    + pose proof (F2Q_neg m e). exfalso. lra.
    + unfold fl_round1. apply fl_round_comp.
      rewrite Qabs_pos by lra. reflexivity.
Qed.

Lemma tenths_mono (x y : Q) :
  (x <= y)%Q ->
  (key (fl_round false (inject_Z (rne (x * 10)) / 10))
   <= key (fl_round false (inject_Z (rne (y * 10)) / 10)))%Q.
Proof.
  intros H. apply fl_round_key_mono, Qdiv_le_mono; [reflexivity|].
  rewrite <- Zle_Qle. apply rne_mono. lra.
Qed.

Lemma tenths_range (x : Q) :
  (0 <= x <= 100)%Q ->
  (0 <= key (fl_round false (inject_Z (rne (x * 10)) / 10)) <= 100)%Q.
Proof.
  intros [H0 H100].
  pose proof (tenths_mono _ _ H0) as L. pose proof (tenths_mono _ _ H100) as U.
  assert (E0 : (key (fl_round false (inject_Z (rne (0 * 10)) / 10)) == 0)%Q)
    by (vm_compute; reflexivity).
  assert (E100 : (key (fl_round false (inject_Z (rne (100 * 10)) / 10)) == 100)%Q)
    by (vm_compute; reflexivity).
  lra.
Qed.

Lemma clamp_round_range (r : float) :
  tame r -> ntame (clamp_round r) /\ (0 <= nkey (clamp_round r) <= 100)%Q.
Proof.
  intros Hr. pose proof big_gt_100 as Hb.
  destruct (clamp_round_cases r Hr) as [[H ->] | [[H ->] | [H ->]]].
  - split; [apply ntame_small; lia|]. cbn [nkey]. split; discriminate.
  - split; [apply ntame_small; lia|]. cbn [nkey]. split; discriminate.
  - rewrite fl_round1_pos by assumption. cbn [nkey ntame].
    split; [apply fl_round_tame|]. apply tenths_range. lra.
Qed.

Lemma clamp_round_mono (r1 r2 : float) :
  tame r1 -> tame r2 -> (key r1 <= key r2)%Q ->
  py_le (clamp_round r1) (clamp_round r2) = true.
Proof.
  intros H1 H2 Hle.
  destruct (clamp_round_range r1 H1) as [T1 R1].
  destruct (clamp_round_range r2 H2) as [T2 R2].
  apply py_le_key; [assumption..|].
  destruct (clamp_round_cases r1 H1) as [[C1 E1] | [[C1 E1] | [C1 E1]]];
    destruct (clamp_round_cases r2 H2) as [[C2 E2] | [[C2 E2] | [C2 E2]]];
    rewrite ?E1, ?E2 in *; cbn [nkey] in *; unfold inject_Z in *; try lra.
  rewrite !fl_round1_pos by assumption. apply tenths_mono. assumption.
Qed.

Lemma clamp_round_nonpos (r : float) :
  tame r -> (key r <= 0)%Q -> clamp_round r = PyInt 0.
Proof.
  intros Hr H.
  destruct (clamp_round_cases r Hr) as [[C E] | [[C E] | [C E]]];
    [exfalso; lra | assumption | exfalso; lra].
Qed.

(** *** The visibility multiplier *)

Lemma prob_range (p : float) :
  prob_in_range p -> fl_finite p = true /\ tame p /\ (0 <= F2Q p <= 100)%Q.
Proof.
  intros [H0 H100]. pose proof big_gt_100 as Hb.
  assert (R : fl_finite p = true /\ (0 <= F2Q p <= 100)%Q).
  { destruct p as [s | s | | s m e]; try discriminate.
    - split; [reflexivity|]. cbn [F2Q]. lra.
    - destruct s; discriminate.
    - split; [reflexivity|].
      unfold py_le, num_cmp in H0, H100.
      cbn [num_val fl_val ereal_compare] in H0, H100.
      unfold inject_Z in *.
      destruct (Qcompare_spec 0 (F2Q (S754_finite s m e)));
        destruct (Qcompare_spec (F2Q (S754_finite s m e)) 100);
        try discriminate; lra. }
  destruct R as [Hf R]. split; [assumption|]. split; [|assumption].
  split; [destruct p; try discriminate; reflexivity | lra].
Qed.

Lemma finite_binary64_tame (c : float) :
  finite_binary64 c -> tame c /\ key c = F2Q c.
Proof.
  intros [Hf Hb].
  assert (Hn : fl_is_nan c = false) by (destruct c; try discriminate Hf; reflexivity).
  pose proof (bounded_range c Hb) as R.
  assert (M : (inject_Z max_float < big)%Q) by (vm_compute; reflexivity).
  split; [|now apply finite_key].
  split; [assumption|].
  revert R M. generalize (inject_Z max_float) big. intros a b R M. lra.
Qed.

Lemma fl_sub_100 (c : float) :
  fl_finite c = true -> fl_sub (fl_of_Z 100) c = fl_round false (100 - F2Q c).
Proof.
  intros Hc. rewrite fl_100.
  destruct c as [s | s | | s m e]; try discriminate.
  - destruct s; vm_compute; reflexivity.
  - unfold fl_sub. cbn [fl_opp SFopp fl_add]. apply fl_round_comp.
    change (S754_finite (negb s) m e) with (fl_opp (S754_finite s m e)).
    rewrite F2Q_opp.
    assert (E : (F2Q (S754_finite false 7036874417766400 (-46)) == 100)%Q)
      by reflexivity.
    rewrite E. ring.
Qed.

Lemma visibility_formula (c : float) :
  finite_binary64 c -> py_le (PyFloat c) (PyInt 50) = false ->
  let u := fl_round false (100 - F2Q c) in
  fl_finite u = true
  /\ fl_finite (visibility_multiplier (Some c)) = true
  /\ exists zs, visibility_multiplier (Some c) = fl_round zs (F2Q u / 50).
Proof.
  intros [Hf Hb] Hgt u.
  pose proof (bounded_range c Hb) as R. pose proof max_float_safe as S.
  assert (Hu : fl_finite u = true) by (apply fl_round_finite; lra).
  assert (E : visibility_multiplier (Some c)
              = fl_round (xorb (fl_sign u) false) (F2Q u / 50)).
  { unfold visibility_multiplier. rewrite Hgt, fl_sub_100 by assumption.
    fold u. rewrite fl_50.
    rewrite (fl_div_finite u _ false 7036874417766400 (-47) Hu eq_refl).
    apply fl_round_comp.
    assert (E : (F2Q (S754_finite false 7036874417766400 (-47)) == 50)%Q)
      by reflexivity.
    now rewrite E. }
  split; [assumption|]. split; [|eexists; exact E].
  rewrite E. apply fl_round_finite.
  destruct (fl_round_tame false (100 - F2Q c)) as [_ T]. fold u in T.
  pose proof big_safe. pose proof big_pos.
  split.
  - apply Qle_shift_div_l; [reflexivity | lra].
  - apply Qle_shift_div_r; [reflexivity | lra].
Qed.

Lemma visibility_shape (c : option float) :
  coverage_ok c ->
  visibility_multiplier c = S754_nan \/ fl_finite (visibility_multiplier c) = true.
Proof.
  destruct c as [c|]; [|intros _; right; rewrite (fl_1 : visibility_multiplier None = _); reflexivity].
  intros [Hb Hinf].
  destruct (py_le (PyFloat c) (PyInt 50)) eqn:E.
  - right. unfold visibility_multiplier. rewrite E, fl_1. reflexivity.
  - destruct c as [s | s | | s m e].
    + discriminate.
    + destruct s; [discriminate | congruence].
    + left. unfold visibility_multiplier. rewrite E, fl_100, fl_50. reflexivity.
    + right. apply visibility_formula; [split; [reflexivity | assumption] | assumption].
Qed.

Lemma visibility_le_one (c : float) :
  finite_binary64 c -> (key (visibility_multiplier (Some c)) <= 1)%Q.
Proof.
  intros Hc. destruct (finite_binary64_tame c Hc) as [Tc Kc].
  destruct (py_le (PyFloat c) (PyInt 50)) eqn:E.
  - unfold visibility_multiplier. rewrite E, key_fl_1. lra.
  - destruct (visibility_formula c Hc E) as (Hu & Hv & zs & Ev).
    apply py_le_false_key in E; [|assumption | apply ntame_small; lia].
    cbn [nkey] in E. unfold inject_Z in E. rewrite Kc in E.
    set (u := fl_round false (100 - F2Q c)) in *.
    assert (U : (key u <= 50)%Q).
    { pose proof (fl_round_key_mono false false (100 - F2Q c) 50 ltac:(lra)) as M.
      fold u in M. change (fl_round false 50) with (fl_of_Z 50) in M.
      rewrite key_fl_50 in M. exact M. }
    rewrite (finite_key u Hu) in U.
    rewrite Ev.
    pose proof (fl_round_key_mono zs false (F2Q u / 50) 1) as M.
    change (fl_round false 1) with fl_one in M. rewrite key_fl_1 in M.
    apply M. apply Qle_shift_div_r; [reflexivity | lra].
Qed.

Lemma visibility_antitone (c1 c2 : float) :
  finite_binary64 c1 -> finite_binary64 c2 -> (F2Q c1 <= F2Q c2)%Q ->
  (key (visibility_multiplier (Some c2)) <= key (visibility_multiplier (Some c1)))%Q.
Proof.
  intros H1 H2 Hle.
  destruct (finite_binary64_tame c1 H1) as [T1 K1].
  destruct (finite_binary64_tame c2 H2) as [T2 K2].
  assert (T50 : ntame (PyInt 50)) by (apply ntame_small; lia).
  destruct (py_le (PyFloat c1) (PyInt 50)) eqn:E1.
  - replace (visibility_multiplier (Some c1)) with fl_one
      by (unfold visibility_multiplier; now rewrite E1).
    rewrite key_fl_1. now apply visibility_le_one.
  - destruct (py_le (PyFloat c2) (PyInt 50)) eqn:E2.
    + apply py_le_false_key in E1; [|assumption..].
      apply py_le_key in E2; [|assumption..].
      cbn [nkey] in E1, E2. rewrite K1 in E1. rewrite K2 in E2.
      unfold inject_Z in *. exfalso. lra.
    + destruct (visibility_formula c1 H1 E1) as (Hu1 & _ & z1 & Ev1).
      destruct (visibility_formula c2 H2 E2) as (Hu2 & _ & z2 & Ev2).
      rewrite Ev1, Ev2. apply fl_round_key_mono, Qdiv_le_mono; [reflexivity|].
      rewrite <- (finite_key _ Hu1), <- (finite_key _ Hu2).
      apply fl_round_key_mono. lra.
Qed.

Lemma visibility_finite (c : float) :
  finite_binary64 c -> fl_finite (visibility_multiplier (Some c)) = true.
Proof.
  intros Hc. destruct (py_le (PyFloat c) (PyInt 50)) eqn:E.
  - unfold visibility_multiplier. rewrite E, fl_1. reflexivity.
  - now apply visibility_formula.
Qed.

Lemma fl_mul_nan_r (x : float) : fl_mul x S754_nan = S754_nan.
Proof. destruct x; reflexivity. Qed.

Lemma indicator_mono_probability (p1 p2 : float) (c : option float) :
  prob_in_range p1 -> prob_in_range p2 -> coverage_ok c ->
  py_le (PyFloat p1) (PyFloat p2) = true ->
  py_le (calculate_aurora_indicator (Some p1) c)
        (calculate_aurora_indicator (Some p2) c) = true.
Proof.
  intros R1 R2 Hc Hle.
  destruct (prob_range p1 R1) as (F1 & T1 & B1).
  destruct (prob_range p2 R2) as (F2 & T2 & B2).
  apply py_le_key in Hle; [|assumption..]. cbn [nkey] in Hle.
  rewrite (finite_key p1 F1), (finite_key p2 F2) in Hle.
  rewrite !indicator_unfold.
  destruct (visibility_shape c Hc) as [N | Fv].
  - rewrite N, !fl_mul_nan_r. reflexivity.
  - rewrite !fl_mul_finite by assumption.
    set (v := visibility_multiplier c) in *.
    destruct (Qlt_le_dec (F2Q v) 0) as [Neg | Pos].
    + rewrite !clamp_round_nonpos; try apply fl_round_tame; try reflexivity.
      * pose proof (fl_round_key_mono (xorb (fl_sign p2) (fl_sign v)) false
                      (F2Q p2 * F2Q v) 0) as M.
        apply M. nra.
      * pose proof (fl_round_key_mono (xorb (fl_sign p1) (fl_sign v)) false
                      (F2Q p1 * F2Q v) 0) as M.
        apply M. nra.
    + apply clamp_round_mono; try apply fl_round_tame.
      apply fl_round_key_mono. nra.
Qed.

Lemma indicator_mono_coverage (p c1 c2 : float) :
  prob_in_range p -> finite_binary64 c1 -> finite_binary64 c2 ->
  py_le (PyFloat c1) (PyFloat c2) = true ->
  py_le (calculate_aurora_indicator (Some p) (Some c2))
        (calculate_aurora_indicator (Some p) (Some c1)) = true.
Proof.
  intros R H1 H2 Hle.
  destruct (prob_range p R) as (Fp & Tp & Bp).
  destruct (finite_binary64_tame c1 H1) as [T1 K1].
  destruct (finite_binary64_tame c2 H2) as [T2 K2].
  apply py_le_key in Hle; [|assumption..]. cbn [nkey] in Hle.
  rewrite K1, K2 in Hle.
  pose proof (visibility_antitone c1 c2 H1 H2 Hle) as V.
  pose proof (visibility_finite c1 H1) as F1.
  pose proof (visibility_finite c2 H2) as F2.
  rewrite (finite_key _ F1), (finite_key _ F2) in V.
  rewrite !indicator_unfold, !fl_mul_finite by assumption.
  apply clamp_round_mono; try apply fl_round_tame.
  apply fl_round_key_mono. nra.
Qed.

(** C7. For probabilities between 0 and 100, the indicator does not
    decrease when the probability grows and the coverage stays fixed
    (absent, or any binary64 value but plus infinity), and it does not
    increase when a finite coverage grows and the probability stays
    fixed. *)
Theorem indicator_monotone (p1 p2 : float) (c : option float) (c1 c2 : float) :
  prob_in_range p1 -> prob_in_range p2 ->
  py_le (PyFloat p1) (PyFloat p2) = true ->
  coverage_ok c ->
  finite_binary64 c1 -> finite_binary64 c2 ->
  py_le (PyFloat c1) (PyFloat c2) = true ->
  py_le (calculate_aurora_indicator (Some p1) c)
        (calculate_aurora_indicator (Some p2) c) = true
  /\ py_le (calculate_aurora_indicator (Some p1) (Some c2))
           (calculate_aurora_indicator (Some p1) (Some c1)) = true.
Proof.
  intros R1 R2 Hp Hc H1 H2 Hcc. split.
  - now apply indicator_mono_probability.
  - now apply indicator_mono_coverage.
Qed.

(** Outside the data model: with a coverage of plus infinity the
    multiplier is minus infinity, its product with a probability of 0 is
    NaN, and [min(100, nan)] is 100; a NaN probability ends the same
    way. *)
Example indicator_outside_the_data_model :
  calculate_aurora_indicator (Some (fl_of_Z 0)) (Some (S754_infinity false)) = PyInt 100
  /\ calculate_aurora_indicator (Some (fl_of_Z 1)) (Some (S754_infinity false)) = PyInt 0
  /\ calculate_aurora_indicator (Some S754_nan) None = PyInt 100.
Proof. vm_compute. repeat split. Qed.

(** *** The indicator against its specification *)

Lemma fl_mul_tame (x y : float) : fl_is_nan (fl_mul x y) = false -> tame (fl_mul x y).
Proof.
  pose proof big_pos.
  destruct x as [sx | sx | | sx mx ex], y as [sy | sy | | sy my ey];
    cbn [fl_mul]; intros Hn; try discriminate;
    try apply fl_round_tame; (split; [reflexivity | cbn [F2Q]; lra]).
Qed.

Lemma tame_key_zero (r : float) :
  tame r -> (key r == 0)%Q -> exists s, r = S754_zero s.
Proof.
  intros [Hn Hr] Hk. pose proof big_pos.
  destruct r as [s | s | | s m e]; try discriminate.
  - now exists s.
  - cbn [key] in Hk. destruct s; exfalso; lra.
  - cbn [key] in Hk. destruct s.
    + pose proof (F2Q_neg m e). exfalso. lra.
    + pose proof (F2Q_pos m e). exfalso. lra.
Qed.

Lemma fl_round1_100 (r : float) :
  tame r -> (key r == 100)%Q -> fl_round1 r = fl_of_Z 100.
Proof.
  intros [Hn Hr] Hk. pose proof big_gt_100.
  destruct r as [s | s | | s m e]; try discriminate; cbn [key] in Hk.
  - destruct s; exfalso; lra.
  - destruct s.
    + pose proof (F2Q_neg m e). exfalso. lra.
    + unfold fl_round1.
      assert (E : (inject_Z (rne (Qabs (F2Q (S754_finite false m e)) * 10)) / 10
                   == inject_Z 100)%Q).
      { rewrite Qabs_pos by lra.
        assert (E10 : (F2Q (S754_finite false m e) * 10 == inject_Z 1000)%Q)
          by (rewrite Hk; reflexivity).
        rewrite (rne_comp _ _ E10), rne_inject_Z. reflexivity. }
      apply (fl_round_comp false _ _ E).
Qed.

Lemma py_eq_refl_tame (x : num) : ntame x -> py_eq x x = true.
Proof. intros H. apply py_eq_key; [assumption..|reflexivity]. Qed.

Lemma indicator_in_range (p clouds : option float) :
  py_le (PyInt 0) (calculate_aurora_indicator p clouds) = true
  /\ py_le (calculate_aurora_indicator p clouds) (PyInt 100) = true.
Proof.
  destruct p as [p|]; [|split; reflexivity].
  rewrite indicator_unfold.
  set (r := fl_mul p (visibility_multiplier clouds)).
  destruct (fl_is_nan r) eqn:N.
  - destruct r; try discriminate N. rewrite clamp_round_nan. split; reflexivity.
  - destruct (clamp_round_range r (fl_mul_tame _ _ N)) as [T [L U]].
    split; (apply py_le_key; [try assumption; apply ntame_small; lia..|]);
      cbn [nkey]; unfold inject_Z; assumption.
Qed.

(** C1. Without a point probability the indicator is exactly [0.0].
    With one it lies between 0 and 100, and it is the product of the
    probability and the visibility multiplier (1.0 when the coverage is
    absent or at most 50, else [(100 - coverage) / 50]), clamped to
    [0, 100] and rounded to one decimal, whenever that product is a
    number. *)
Theorem indicator_as_specified (p : float) (clouds : option float) :
  calculate_aurora_indicator None clouds = PyFloat fl_zero
  /\ (py_le (PyInt 0) (calculate_aurora_indicator (Some p) clouds) = true
      /\ py_le (calculate_aurora_indicator (Some p) clouds) (PyInt 100) = true)
  /\ (fl_is_nan (fl_mul p (visibility_multiplier clouds)) = false ->
      py_eq (calculate_aurora_indicator (Some p) clouds)
            (PyFloat (score_spec p clouds)) = true).
Proof.
  split; [reflexivity|]. split; [apply indicator_in_range|]. intros Hn.
  rewrite indicator_unfold. unfold score_spec.
  set (r := fl_mul p (visibility_multiplier clouds)) in *.
  pose proof (fl_mul_tame _ _ Hn) as Tr. fold r in Tr.
  assert (T0 : ntame (PyInt 0)) by (apply ntame_small; lia).
  assert (T100 : ntame (PyInt 100)) by (apply ntame_small; lia).
  assert (Tr' : ntame (PyFloat r)) by exact Tr.
  unfold clamp_0_100.
  destruct (clamp_round_cases r Tr) as [[C ->] | [[C ->] | [C ->]]].
  - replace (py_lt (PyFloat r) (PyInt 0)) with false
      by (symmetry; apply py_lt_false_key; [assumption..|];
          cbn [nkey]; unfold inject_Z; lra).
    assert (E : fl_round1 (if py_gt (PyFloat r) (PyInt 100) then fl_of_Z 100 else r)
                = fl_of_Z 100).
    { destruct (py_gt (PyFloat r) (PyInt 100)) eqn:G.
      - vm_compute. reflexivity.
      - apply py_gt_false_key in G; [|assumption..]. cbn [nkey] in G.
        unfold inject_Z in G. apply fl_round1_100; [assumption | lra]. }
    rewrite E. vm_compute. reflexivity.
  - destruct (py_lt (PyFloat r) (PyInt 0)) eqn:L; [reflexivity|].
    apply py_lt_false_key in L; [|assumption..]. cbn [nkey] in L.
    unfold inject_Z in L.
    destruct (tame_key_zero r Tr ltac:(lra)) as [s ->].
    destruct s; reflexivity.
  - replace (py_lt (PyFloat r) (PyInt 0)) with false
      by (symmetry; apply py_lt_false_key; [assumption..|];
          cbn [nkey]; unfold inject_Z; lra).
    replace (py_gt (PyFloat r) (PyInt 100)) with false
      by (symmetry; apply py_gt_false_key; [assumption..|];
          cbn [nkey]; unfold inject_Z; lra).
    apply py_eq_refl_tame. cbn [ntame].
    rewrite fl_round1_pos by assumption. apply fl_round_tame.
Qed.

(** *** The traffic light *)

Lemma py_ge_int (score : num) (q : Q) (n : Z) :
  num_val score = Some (Fin q) ->
  (py_ge score (PyInt n) = true <-> (inject_Z n <= q)%Q).
Proof.
  intros H. unfold py_ge, num_cmp. rewrite H. cbn [num_val ereal_compare].
  destruct (Qcompare_spec q (inject_Z n)); split; intros; try lra; try reflexivity;
    discriminate.
Qed.

(** C2. The traffic light is a total function of the score; on every
    score with a finite value it is "red" exactly from 50 on, "yellow"
    exactly from 25 up to but not including 50, "green" exactly from 10
    up to but not including 25, and "black" exactly below 10, so the
    bounds 10, 25 and 50 fall into the higher band. *)
Theorem traffic_light_bands (score : num) (q : Q) :
  num_val score = Some (Fin q) ->
  (calculate_traffic_light score = "red" <-> (50 <= q)%Q)
  /\ (calculate_traffic_light score = "yellow" <-> (25 <= q < 50)%Q)
  /\ (calculate_traffic_light score = "green" <-> (10 <= q < 25)%Q)
  /\ (calculate_traffic_light score = "black" <-> (q < 10)%Q).
Proof.
  intros H. unfold calculate_traffic_light.
  pose proof (py_ge_int score q 50 H) as H50.
  pose proof (py_ge_int score q 25 H) as H25.
  pose proof (py_ge_int score q 10 H) as H10.
  unfold inject_Z in *.
  destruct (py_ge score (PyInt 50)) eqn:E50;
    [assert (50 <= q)%Q by (now apply H50)
    |assert (~ (50 <= q)%Q) by (intros C; apply H50 in C; discriminate)];
  (destruct (py_ge score (PyInt 25)) eqn:E25;
    [assert (25 <= q)%Q by (now apply H25)
    |assert (~ (25 <= q)%Q) by (intros C; apply H25 in C; discriminate)]);
  (destruct (py_ge score (PyInt 10)) eqn:E10;
    [assert (10 <= q)%Q by (now apply H10)
    |assert (~ (10 <= q)%Q) by (intros C; apply H10 in C; discriminate)]);
  repeat split; intros; try discriminate; try reflexivity; try lra;
    exfalso; lra.
Qed.

Lemma traffic_light_total (score : num) :
  In (calculate_traffic_light score) ["red"; "yellow"; "green"; "black"]%string.
Proof.
  unfold calculate_traffic_light.
  destruct (py_ge score (PyInt 50)); [simpl; tauto|].
  destruct (py_ge score (PyInt 25)); [simpl; tauto|].
  destruct (py_ge score (PyInt 10)); simpl; tauto.
Qed.

(** *** The K-index reader *)

Lemma kp_scan_spec (rows : list json) :
  Forall is_array rows ->
  forall i last,
    kp_scan rows i last
    = Ok match last_observed rows with
         | Some j => Some (i + j)%nat
         | None => last
         end.
Proof.
  induction 1 as [|row rest Hrow Hrest IH]; intros i last; [reflexivity|].
  destruct Hrow as [items ->].
  destruct items as [|a [|b [|c r]]];
    cbn [kp_scan py_len bind List.length Nat.leb py_getitem nth_error
         last_observed observed];
    rewrite IH; destruct (last_observed rest) as [j|];
    try destruct (py_str_eq c "observed");
    try reflexivity; f_equal; f_equal; lia.
Qed.

Lemma table_row_int (t tag : json) (z : Z) (rest : list json) :
  fl_finite (fl_of_Z z) = true -> table_row (JArr (t :: JInt z :: tag :: rest)).
Proof.
  intros H. exists t, (JInt z), tag, rest, (fl_of_Z z).
  split; [reflexivity|]. cbn [py_float]. now rewrite H.
Qed.

Lemma table_row_is_array (row : json) : table_row row -> is_array row.
Proof. intros (t & kp & tag & rest & f & -> & _). now eexists. Qed.

Lemma kp_value_table (rows : list json) (i : nat) :
  Forall table_row rows -> (i < List.length rows)%nat ->
  exists f, kp_value (JArr rows) i = Ok f /\ kp_at rows i = Some f.
Proof.
  intros Hrows Hi. unfold kp_value, kp_at. cbn [py_getitem].
  destruct (nth_error rows i) as [row|] eqn:E.
  - assert (Hr : table_row row)
      by (rewrite Forall_forall in Hrows; apply Hrows; eapply nth_error_In; eauto).
    destruct Hr as (t & kp & tag & rest & f & -> & Hf).
    exists f. cbn. now rewrite Hf.
  - apply nth_error_None in E. lia.
Qed.

Lemma kp_at_beyond (rows : list json) (i : nat) :
  (List.length rows <= i)%nat -> kp_at rows i = None.
Proof.
  intros H. unfold kp_at.
  now rewrite (proj2 (nth_error_None rows i) H).
Qed.

Lemma last_observed_lt (rows : list json) (i : nat) :
  last_observed rows = Some i -> (i < List.length rows)%nat.
Proof.
  revert i. induction rows as [|row rest IH]; intros i; cbn [last_observed List.length];
    [discriminate|].
  destruct (last_observed rest) as [j|].
  - intros [= <-]. specialize (IH j eq_refl). lia.
  - destruct (observed row); [intros [= <-]; lia | discriminate].
Qed.

Lemma parse_kp_table (header : json) (rows : list json) :
  Forall table_row rows ->
  parse_kp (JArr (header :: rows)) = Ok (kp_spec rows).
Proof.
  intros Hrows. unfold parse_kp, kp_spec.
  cbn [py_slice_from1 tl py_iter bind].
  rewrite kp_scan_spec
    by (eapply Forall_impl; [apply table_row_is_array | exact Hrows]).
  cbn [bind]. destruct (last_observed rows) as [i|] eqn:L; [|reflexivity].
  cbn [Nat.add]. pose proof (last_observed_lt rows i L) as Hi.
  destruct (kp_value_table rows i Hrows Hi) as (f & -> & ->).
  cbn [bind py_len].
  destruct (Nat.ltb_spec (i + 1) (List.length rows)) as [H1 | H1].
  - destruct (kp_value_table rows (i + 1) Hrows H1) as (f1 & -> & ->).
    cbn [bind].
    destruct (Nat.ltb_spec (i + 2) (List.length rows)) as [H2 | H2].
    + destruct (kp_value_table rows (i + 2) Hrows H2) as (f2 & -> & ->).
      reflexivity.
    + now rewrite (kp_at_beyond rows (i + 2) H2).
  - rewrite (kp_at_beyond rows (i + 1) H1). cbn [bind].
    destruct (Nat.ltb_spec (i + 2) (List.length rows)) as [H2 | H2]; [lia|].
    now rewrite (kp_at_beyond rows (i + 2) H2).
Qed.

(** C3. On a K-index table whose first row is a header, the reader
    returns the Kp value of the last row tagged "observed" as the current
    value and the Kp values of the rows one and two positions after it,
    whatever their tags, as the 3-hour and 6-hour values; a position
    past the end gives absence, and a table without an observed row gives
    three absences.  The rows of the worked example give 4, 5 and 6. *)
Theorem kp_reader_last_observed (w : world) (header : json) (rows : list json) :
  http_get w KP_FORECAST_URL = Ok (JArr (header :: rows)) ->
  Forall table_row rows ->
  fetch_kp_indices w = Ok (kp_spec rows)
  /\ (last_observed rows = None -> kp_spec rows = (None, None, None))
  /\ kp_spec example_kp_rows
     = (Some (fl_of_Z 4), Some (fl_of_Z 5), Some (fl_of_Z 6)).
Proof.
  intros Hget Hrows. split; [|split].
  - unfold fetch_kp_indices, fetch_json. rewrite Hget. cbn [bind is_None].
    rewrite (parse_kp_table header rows Hrows). reflexivity.
  - intros L. unfold kp_spec. now rewrite L.
  - vm_compute. reflexivity.
Qed.

(** C10. When the row one or two positions after the last observed row
    exists but its Kp entry is missing or is not a number, the reader
    returns three absences: the current value, already read from a valid
    observed row, is dropped with the rest. *)
Theorem kp_reader_drops_partial_result
    (w : world) (header : json) (rows : list json) (idx k : nat)
    (current : float) (e : exn) :
  http_get w KP_FORECAST_URL = Ok (JArr (header :: rows)) ->
  Forall is_array rows ->
  last_observed rows = Some idx ->
  kp_value (JArr rows) idx = Ok current ->
  (k = 1 \/ k = 2)%nat ->
  (idx + k < List.length rows)%nat ->
  kp_value (JArr rows) (idx + k) = Raise e ->
  fetch_kp_indices w = Ok (None, None, None).
Proof.
  intros Hget Hrows L Hcur Hk Hlt Hbad.
  unfold fetch_kp_indices, fetch_json. rewrite Hget. cbn [bind is_None].
  unfold parse_kp. cbn [py_slice_from1 tl py_iter bind].
  rewrite (kp_scan_spec rows Hrows), L. cbn [bind Nat.add].
  rewrite Hcur. cbn [bind py_len].
  destruct Hk as [-> | ->].
  - destruct (Nat.ltb_spec (idx + 1) (List.length rows)) as [H1 | H1]; [|lia].
    rewrite Hbad. reflexivity.
  - destruct (Nat.ltb_spec (idx + 1) (List.length rows)) as [H1 | H1]; [|lia].
    destruct (kp_value (JArr rows) (idx + 1)) as [f1|e1]; [|reflexivity].
    cbn [bind].
    destruct (Nat.ltb_spec (idx + 2) (List.length rows)) as [H2 | H2]; [|lia].
    rewrite Hbad. reflexivity.
Qed.

(** *** The aurora-grid reader *)

Lemma ovation_loop_spec (target_lat target_lon : Z) (coords : list json) :
  forall cells point regional,
    decode_grid coords = Some cells ->
    ovation_loop target_lat target_lon coords point regional
    = Ok (match exact_match target_lat target_lon cells with
          | Some v => Some v
          | None => point
          end,
          (regional
             ++ map cell_value (filter (in_window target_lat target_lon) cells))%list).
Proof.
  induction coords as [|coord rest IH]; intros cells point regional Hd.
  - injection Hd as <-. cbn. now rewrite app_nil_r.
  - cbn [decode_grid] in Hd.
    destruct (decode_cell coord) as [c|] eqn:Hc; [|discriminate].
    destruct (decode_grid rest) as [cs|] eqn:Hcs; [|discriminate].
    injection Hd as <-.
    destruct coord as [ | | | | | items | ]; try discriminate.
    destruct items as [|lon [|lat [|v more]]]; try discriminate.
    cbn [decode_cell] in Hc.
    destruct (num_of_json lon) as [x|] eqn:Hx; [|discriminate].
    destruct (num_of_json lat) as [y|] eqn:Hy; [|discriminate].
    destruct (py_float v) as [f|e] eqn:Hf; [|discriminate].
    injection Hc as <-.
    cbn [ovation_loop py_getitem nth_error bind].
    unfold py_eq_int, py_between, py_int_le, py_le_int. rewrite Hx, Hy, Hf.
    cbn [bind exact_match filter in_window at_target cell_value snd].
    destruct (py_eq y (PyInt target_lat) && py_eq x (PyInt target_lon));
      cbn [bind];
      destruct (py_le (PyInt (target_lon - 1)) x); cbn [bind andb];
      try destruct (py_le x (PyInt (target_lon + 1))); cbn [bind andb];
      try destruct (py_le (PyInt (target_lat - 1)) y); cbn [bind andb];
      try destruct (py_le y (PyInt (target_lat + 1))); cbn [bind andb];
      rewrite (IH cs) by reflexivity;
      destruct (exact_match target_lat target_lon cs);
      cbn [map cell_value snd]; rewrite <- ?app_assoc; reflexivity.
Qed.

Lemma regional_average_mean (values : list float) :
  regional_average values = rounded_mean values.
Proof. reflexivity. Qed.

Lemma py_round_finite (f : float) :
  fl_finite f = true -> py_round f = Ok (rne (F2Q f)).
Proof. destruct f; try discriminate; reflexivity. Qed.

(** C5. The grid reader rounds the target latitude and longitude to the
    nearest integers, returns the value of the grid cell on the rounded
    target (absence when there is none) and the mean, rounded to one
    decimal, of the values of the cells within one degree of it, bounds
    included (absence when the window is empty).  The worked example
    gives 40.0 and 30.0. *)
Theorem ovation_reader_point_and_region
    (w : world) (lat lon : float) (fields : list (string * json))
    (coords : list json) (cells : list cell) :
  http_get w OVATION_URL = Ok (JObj fields) ->
  assoc "coordinates" fields = Some (JArr coords) ->
  decode_grid coords = Some cells ->
  fl_finite lat = true -> fl_finite lon = true ->
  fetch_ovation_data w lat lon = Ok (ovation_spec lat lon cells)
  /\ decode_grid example_grid = Some example_cells
  /\ ovation_spec example_lat example_lon example_cells
     = (Some (fl_of_Z 40), Some (fl_of_Z 30)).
Proof.
  intros Hget Hc Hd Hlat Hlon. split; [|split].
  - unfold fetch_ovation_data, fetch_json. rewrite Hget. cbn [bind is_None].
    unfold parse_ovation. cbn [py_get bind]. rewrite Hc.
    rewrite (py_round_finite lat Hlat), (py_round_finite lon Hlon).
    cbn [bind py_iter].
    rewrite (ovation_loop_spec _ _ coords cells None [] Hd).
    cbn [bind try_except app]. unfold ovation_spec.
    rewrite regional_average_mean.
    destruct (exact_match (rne (F2Q lat)) (rne (F2Q lon)) cells); reflexivity.
  - vm_compute. reflexivity.
  - vm_compute. reflexivity.
Qed.

(** *** The notification gate *)

Lemma lex_compare_antisym (a b : list Z) :
  lex_compare b a = CompOpp (lex_compare a b).
Proof.
  revert b. induction a as [|x a IH]; intros [|y b]; try reflexivity.
  cbn [lex_compare]. rewrite (Z.compare_antisym x y).
  destruct (x ?= y)%Z; cbn [CompOpp]; [apply IH | reflexivity | reflexivity].
Qed.

Lemma datetime_le_not_lt (s now : datetime) :
  datetime_le s now = negb (datetime_lt now s).
Proof.
  unfold datetime_le, datetime_lt, datetime_compare.
  rewrite (lex_compare_antisym (datetime_key s) (datetime_key now)).
  destruct (lex_compare (datetime_key s) (datetime_key now)); reflexivity.
Qed.

Lemma datetime_le_not_gt (now e : datetime) :
  datetime_le now e = negb (datetime_gt now e).
Proof.
  unfold datetime_le, datetime_gt. destruct (datetime_compare now e); reflexivity.
Qed.

Lemma window_skip_spec (now : datetime) (start stop : option datetime) :
  match window_skip now start stop with
  | None => within_window now start stop = true
  | Some line =>
      within_window now start stop = false
      /\ ((exists d, start = Some d /\ line = msg_before_window d)
          \/ (exists d, stop = Some d /\ line = msg_after_window d))
  end.
Proof.
  unfold window_skip, within_window.
  destruct start as [s|], stop as [e|]; cbn [is_some orb];
    try rewrite (datetime_le_not_lt s now); try rewrite (datetime_le_not_gt now e);
    try destruct (datetime_lt now s); try destruct (datetime_gt now e);
    cbn [negb andb]; try reflexivity; (split; [reflexivity|]); eauto.
Qed.

Lemma skip_lines_distinct (d d' : datetime) :
  NoDup [msg_not_on_actions; msg_no_credentials; msg_before_window d;
         msg_after_window d'; msg_below_yellow].
Proof.
  unfold msg_not_on_actions, msg_no_credentials, msg_before_window,
    msg_after_window, msg_below_yellow.
  generalize (datetime_str d) (datetime_str d'). intros x y.
  cbn [append].
  repeat constructor; cbn [In]; intuition discriminate.
Qed.

(** C4. The gate makes one outbound send exactly when its four guards
    hold, and never more than one; the guards are tried in the order
    environment flag, credentials, time window, condition class, and the
    first that fails decides the line that is logged, each guard having
    a line of its own; class "green" never sends. *)
Theorem notification_gate
    (w : world) (location_name : string) (indicator : num)
    (aurora_prob clouds : option float) (traffic_light : string)
    (notify_start notify_end : option datetime) :
  let trace :=
    fst (send_pushover_notification w location_name indicator aurora_prob clouds
           traffic_light notify_start notify_end) in
  let in_window := within_window (datetime_now w) notify_start notify_end in
  (posts trace <= 1)%nat
  /\ (posts trace = 1%nat <->
      flag_set w = true /\ credentials_present w = true
      /\ in_window = true /\ class_notifies traffic_light = true)
  /\ (flag_set w = false -> trace = [Log msg_not_on_actions])
  /\ (flag_set w = true -> credentials_present w = false ->
      trace = [Log msg_no_credentials])
  /\ (flag_set w = true -> credentials_present w = true -> in_window = false ->
      (exists d, notify_start = Some d /\ trace = [Log (msg_before_window d)])
      \/ (exists d, notify_end = Some d /\ trace = [Log (msg_after_window d)]))
  /\ (flag_set w = true -> credentials_present w = true -> in_window = true ->
      class_notifies traffic_light = false -> trace = [Log msg_below_yellow])
  /\ (forall d d',
        NoDup [msg_not_on_actions; msg_no_credentials; msg_before_window d;
               msg_after_window d'; msg_below_yellow])
  /\ (traffic_light = "green" -> posts trace = 0%nat).
Proof.
  intros trace in_window. subst trace in_window.
  unfold send_pushover_notification, flag_set, credentials_present, class_notifies.
  pose proof (window_skip_spec (datetime_now w) notify_start notify_end) as W.
  pose proof skip_lines_distinct as D.
  assert (G : traffic_light = "green" ->
              (String.eqb traffic_light "yellow" || String.eqb traffic_light "red")
              = false)
    by (intros ->; reflexivity).
  destruct (env_truthy (environ w "GITHUB_ACTIONS")); cbn [negb].
  2: { cbn [fst posts filter is_post List.length].
       repeat split; intros; try discriminate; try reflexivity; try lia;
         try apply D; intuition discriminate. }
  destruct (env_truthy (environ w "PUSHOVER_TOKEN")),
    (env_truthy (environ w "PUSHOVER_USER")); cbn [negb orb andb].
  2, 3, 4: cbn [fst posts filter is_post List.length];
    repeat split; intros; try discriminate; try reflexivity; try lia;
    try apply D; intuition discriminate.
  destruct (window_skip (datetime_now w) notify_start notify_end) as [line|].
  - destruct W as [W1 W2]. rewrite W1.
    cbn [fst posts filter is_post List.length].
    repeat split; intros; try discriminate; try reflexivity; try lia;
      try apply D; try (intuition discriminate).
    destruct W2 as [(d & -> & ->) | (d & -> & ->)]; eauto.
  - rewrite W.
    destruct (String.eqb traffic_light "yellow" || String.eqb traffic_light "red")
      eqn:C; cbn [negb].
    + destruct (http_post w) as [status|e];
        [destruct (status =? 200)%Z | destruct (is_URLError e)];
        cbn [fst posts filter is_post List.length];
        repeat split; intros; try discriminate; try reflexivity; try lia;
        try apply D;
        match goal with
        | H : traffic_light = "green" |- _ => apply G in H; discriminate
        end.
    + cbn [fst posts filter is_post List.length].
      repeat split; intros; try discriminate; try reflexivity; try lia;
        try apply D; intuition discriminate.
Qed.

(** *** The run of [main] *)

Lemma fetch_json_degrades (w : world) (u : url) :
  source_degrades w u -> exists data, fetch_json w u = Ok data.
Proof.
  unfold source_degrades, fetch_json.
  destruct (http_get w u) as [data|e]; [eauto|].
  intros ->. eauto.
Qed.

Lemma fetch_json_raises (w : world) (u : url) (e : exn) :
  http_get w u = Raise e -> is_URLError_or_JSONDecodeError e = false ->
  fetch_json w u = Raise e.
Proof. intros H N. unfold fetch_json. now rewrite H, N. Qed.

Lemma try_except_total {A : Type} (body : result A) (a : A) :
  exists x, try_except body (fun _ => Ok a) = Ok x.
Proof. destruct body; cbn; eauto. Qed.

Lemma fetch_cloud_coverage_total (w : world) (lat lon : float) :
  source_degrades w (MET_URL lat lon) ->
  exists r, fetch_cloud_coverage w lat lon = Ok r.
Proof.
  intros H. destruct (fetch_json_degrades _ _ H) as [data E].
  unfold fetch_cloud_coverage. rewrite E. cbn [bind].
  destruct (is_None data); [eauto | apply try_except_total].
Qed.

Lemma fetch_ovation_data_total (w : world) (lat lon : float) :
  source_degrades w OVATION_URL -> exists r, fetch_ovation_data w lat lon = Ok r.
Proof.
  intros H. destruct (fetch_json_degrades _ _ H) as [data E].
  unfold fetch_ovation_data. rewrite E. cbn [bind].
  destruct (is_None data); [eauto | apply try_except_total].
Qed.

Lemma fetch_kp_indices_total (w : world) :
  source_degrades w KP_FORECAST_URL -> exists r, fetch_kp_indices w = Ok r.
Proof.
  intros H. destruct (fetch_json_degrades _ _ H) as [data E].
  unfold fetch_kp_indices. rewrite E. cbn [bind].
  destruct (is_None data); [eauto | apply try_except_total].
Qed.

Lemma fetch_solar_wind_total (w : world) :
  source_degrades w SOLAR_WIND_URL -> exists r, fetch_solar_wind w = Ok r.
Proof.
  intros H. destruct (fetch_json_degrades _ _ H) as [data E].
  unfold fetch_solar_wind. rewrite E. cbn [bind].
  destruct (is_None data); [eauto | apply try_except_total].
Qed.

(** When every fetch answers or fails with a caught exception, the
    snapshot is written first, with its eleven keys. *)
Lemma main_writes_snapshot (a : args) (w : world) :
  (forall u, source_degrades w u) ->
  exists fields rest,
    fst (main a w) = WriteFile (arg_output a) (JObj fields) :: rest
    /\ map fst fields = snapshot_keys.
Proof.
  intros H. unfold main.
  destruct (fetch_cloud_coverage_total w (arg_lat a) (arg_lon a) (H _)) as [clouds ->].
  destruct (fetch_ovation_data_total w (arg_lat a) (arg_lon a) (H _))
    as [[point region] ->].
  destruct (fetch_kp_indices_total w (H _)) as [[[kp k3] k6] ->].
  destruct (fetch_solar_wind_total w (H _)) as [[bz bt] ->].
  destruct (send_pushover_notification _ _ _ _ _ _ _ _) as [sent r].
  cbn [fst app]. eexists _, _. split; reflexivity.
Qed.

(** An exception that [fetch_json] does not catch leaves the first
    reader and ends the run before anything is written. *)
Lemma main_aborts_on_uncaught (a : args) (w : world) (e : exn) :
  http_get w (MET_URL (arg_lat a) (arg_lon a)) = Raise e ->
  is_URLError_or_JSONDecodeError e = false ->
  main a w = ([], Raise e).
Proof.
  intros H N. unfold main, fetch_cloud_coverage.
  now rewrite (fetch_json_raises _ _ _ H N).
Qed.

Lemma recommendation_badge_colors (score : num) :
  let light := calculate_traffic_light score in
  (light = "black"
   /\ get_recommendation_badge light
      = generate_badge "Current Status" "Definitely not" "gray")
  \/ (In light ["red"; "yellow"; "green"]
      /\ exists message,
          get_recommendation_badge light = generate_badge "Current Status" message light).
Proof.
  cbv zeta. pose proof (traffic_light_total score) as T.
  cbn [In] in T. destruct T as [<- | [<- | [<- | [<- | []]]]].
  - right. split; [cbn; tauto | eexists; reflexivity].
  - right. split; [cbn; tauto | eexists; reflexivity].
  - right. split; [cbn; tauto | eexists; reflexivity].
  - left. split; reflexivity.
Qed.

(** C8. In a run that writes the badges, the snapshot holds "black" for
    the bottom band while the recommendation badge of the same run has
    color "gray" and message "Definitely not"; for the other three bands
    the snapshot string and the badge color are the same string, "red",
    "yellow" or "green". *)
Theorem snapshot_black_badge_gray (a : args) (w : world) :
  arg_badges a = true ->
  fst (main a w) <> [] ->
  exists fields indicator light badge rest,
    fst (main a w)
    = WriteFile (arg_output a) (JObj fields)
        :: MakeDirs "badges"
        :: WriteFile "badges/recommendation.json" badge
        :: rest
    /\ assoc "aurora-indicator" fields = Some (json_of_num indicator)
    /\ light = calculate_traffic_light indicator
    /\ assoc "aurora-traffic-light" fields = Some (JStr light)
    /\ ((light = "black"
         /\ badge = generate_badge "Current Status" "Definitely not" "gray")
        \/ (In light ["red"; "yellow"; "green"]
            /\ exists message, badge = generate_badge "Current Status" message light)).
Proof.
  intros Hb Hne. unfold main in *.
  destruct (fetch_cloud_coverage w (arg_lat a) (arg_lon a)) as [clouds|e];
    [|now contradiction Hne].
  destruct (fetch_ovation_data w (arg_lat a) (arg_lon a)) as [[point region]|e];
    [|now contradiction Hne].
  destruct (fetch_kp_indices w) as [[[kp k3] k6]|e]; [|now contradiction Hne].
  destruct (fetch_solar_wind w) as [[bz bt]|e]; [|now contradiction Hne].
  rewrite Hb.
  destruct (send_pushover_notification _ _ _ _ _ _ _ _) as [sent r].
  cbn [fst app write_badges map snd].
  eexists _, (calculate_aurora_indicator point clouds), _, _, _.
  split; [reflexivity|]. split; [reflexivity|]. split; [reflexivity|].
  split; [reflexivity|].
  apply recommendation_badge_colors.
Qed.

Lemma gate_post_inv (w : world) (location_name : string) (indicator : num)
    (aurora_prob clouds : option float) (traffic_light : string)
    (notify_start notify_end : option datetime)
    (target : string) (form : list (string * string)) :
  In (HttpPost target form)
     (fst (send_pushover_notification w location_name indicator aurora_prob clouds
             traffic_light notify_start notify_end)) ->
  class_notifies traffic_light = true
  /\ lookup "message" form = Some (notification_message aurora_prob clouds).
Proof.
  unfold send_pushover_notification, class_notifies.
  destruct (env_truthy (environ w "GITHUB_ACTIONS")); cbn [negb];
    [|cbn; intuition discriminate].
  destruct (negb (env_truthy (environ w "PUSHOVER_TOKEN"))
            || negb (env_truthy (environ w "PUSHOVER_USER")));
    [cbn; intuition discriminate|].
  destruct (window_skip (datetime_now w) notify_start notify_end);
    [cbn; intuition discriminate|].
  destruct (String.eqb traffic_light "yellow" || String.eqb traffic_light "red");
    cbn [negb]; [|cbn; intuition discriminate].
  destruct (http_post w) as [status|e];
    [destruct (status =? 200)%Z | destruct (is_URLError e)];
    cbn [fst In]; intros H; split; try reflexivity;
    repeat (destruct H as [H | H]; try discriminate; try contradiction);
    injection H as <- <-; reflexivity.
Qed.

Lemma absent_probability_is_black (clouds : option float) :
  class_notifies (calculate_traffic_light (calculate_aurora_indicator None clouds))
  = false.
Proof. reflexivity. Qed.

(** C9. Whenever a run of [main] reaches the send, the point probability
    is present: the snapshot of the run holds a number under
    "aurora-probability" and the message is built from that number, so
    the "N/A" of the probability line is never used there.  The "N/A" of
    the cloud line is used: some run sends with an absent coverage. *)
Theorem notification_has_probability
    (a : args) (w : world) (target : string) (form : list (string * string)) :
  In (HttpPost target form) (fst (main a w)) ->
  (exists fields p clouds,
      In (WriteFile (arg_output a) (JObj fields)) (fst (main a w))
      /\ assoc "aurora-probability" fields = Some (JFloat p)
      /\ assoc "cloud-coverage" fields = Some (json_of_opt_float clouds)
      /\ lookup "message" form = Some (notification_message (Some p) clouds))
  /\ (exists a' w' target' form' p',
         In (HttpPost target' form') (fst (main a' w'))
         /\ lookup "message" form' = Some (notification_message (Some p') None)).
Proof.
  intros Hin. split.
  - unfold main in *.
    destruct (fetch_cloud_coverage w (arg_lat a) (arg_lon a)) as [clouds|e];
      [|contradiction].
    destruct (fetch_ovation_data w (arg_lat a) (arg_lon a)) as [[point region]|e];
      [|contradiction].
    destruct (fetch_kp_indices w) as [[[kp k3] k6]|e]; [|contradiction].
    destruct (fetch_solar_wind w) as [[bz bt]|e]; [|contradiction].
    destruct (send_pushover_notification w (arg_location a)
                (calculate_aurora_indicator point clouds) point clouds
                (calculate_traffic_light (calculate_aurora_indicator point clouds))
                (arg_notify_start a) (arg_notify_end a)) as [sent r] eqn:S.
    cbn [fst] in *.
    assert (Hsent : In (HttpPost target form) sent).
    { apply in_app_or in Hin. destruct Hin as [Hin | Hin];
        [cbn in Hin; intuition discriminate|].
      apply in_app_or in Hin. destruct Hin as [Hin | Hin]; [|assumption].
      destruct (arg_badges a); [|contradiction].
      cbn in Hin. intuition discriminate. }
    replace sent with (fst (sent, r)) in Hsent by reflexivity.
    rewrite <- S in Hsent. apply gate_post_inv in Hsent.
    destruct Hsent as [Hclass Hmsg].
    destruct point as [p|];
      [|rewrite absent_probability_is_black in Hclass; discriminate].
    eexists _, p, clouds. split; [left; reflexivity|].
    split; [reflexivity|]. split; [reflexivity | assumption].
  - exists example_args, example_world.
    eexists _, _, (fl_of_Z 40). split.
    + vm_compute. do 8 right. left. reflexivity.
    + vm_compute. reflexivity.
Qed.

(** *** The arithmetic against the Standard Library's operations *)

Lemma arithmetic_agrees_on_samples :
  forallb (fun xy => agrees_with_SpecFloat (fst xy) (snd xy)) sample_pairs = true.
Proof. vm_compute. reflexivity. Qed.

(** [round(0.35, 1)] is [0.3]: the double below 0.35 is not a tie. *)
Example round1_035 :
  fl_round1 (fl_round false (35 # 100)) = fl_round false (3 # 10).
Proof. vm_compute. reflexivity. Qed.

(** [round(0.25, 1)] is [0.2]: an exact tie goes to the even digit. *)
Example round1_025 :
  fl_round1 (fl_round false (25 # 100)) = fl_round false (2 # 10).
Proof. vm_compute. reflexivity. Qed.

Example traffic_light_at_bounds :
  map calculate_traffic_light
      [PyInt 0; PyFloat (fl_round false (99 # 10)); PyFloat (fl_of_Z 10);
       PyFloat (fl_round false (249 # 10)); PyFloat (fl_of_Z 25);
       PyFloat (fl_round false (499 # 10)); PyFloat (fl_of_Z 50); PyInt 100]
  = ["black"; "black"; "green"; "green"; "yellow"; "yellow"; "red"; "red"].
Proof. vm_compute. reflexivity. Qed.

(** Coverage 75 halves the probability, coverage 100 removes it. *)
Example indicator_samples :
  calculate_aurora_indicator (Some (fl_of_Z 40)) (Some (fl_of_Z 75))
  = PyFloat (fl_of_Z 20)
  /\ calculate_aurora_indicator (Some (fl_of_Z 40)) (Some (fl_of_Z 100)) = PyInt 0
  /\ calculate_aurora_indicator (Some (fl_of_Z 40)) None = PyFloat (fl_of_Z 40).
Proof. vm_compute. repeat split. Qed.

(* ================================================================= *)
(** * Further properties of the readers *)

(** X1. A reader never raises on what its fetch gives it: whenever each
    endpoint answers with any payload at all, or fails with an exception
    [fetch_json] catches, the four readers return. *)
Theorem readers_return_on_every_payload (w : world) (lat lon : float) :
  (forall u, source_degrades w u) ->
  (exists r, fetch_cloud_coverage w lat lon = Ok r)
  /\ (exists r, fetch_ovation_data w lat lon = Ok r)
  /\ (exists r, fetch_kp_indices w = Ok r)
  /\ (exists r, fetch_solar_wind w = Ok r).
Proof.
  intros H. repeat split.
  - apply fetch_cloud_coverage_total, H.
  - apply fetch_ovation_data_total, H.
  - apply fetch_kp_indices_total, H.
  - apply fetch_solar_wind_total, H.
Qed.

(** X2. The cloud reader reads the first entry of the forecast only:
    the coverage is the [cloud_area_fraction] of that entry, whatever
    the later entries hold. *)
Theorem cloud_reader_first_entry
    (w : world) (lat lon : float) (fields props first d i det : list (string * json))
    (rest : list json) (v : json) (f : float) :
  http_get w (MET_URL lat lon) = Ok (JObj fields) ->
  assoc "properties" fields = Some (JObj props) ->
  assoc "timeseries" props = Some (JArr (JObj first :: rest)) ->
  assoc "data" first = Some (JObj d) ->
  assoc "instant" d = Some (JObj i) ->
  assoc "details" i = Some (JObj det) ->
  assoc "cloud_area_fraction" det = Some v ->
  py_float v = Ok f ->
  fetch_cloud_coverage w lat lon = Ok (Some f).
Proof.
  intros Hget Hp Ht Hd Hi Hdet Hv Hf.
  unfold fetch_cloud_coverage, fetch_json. rewrite Hget.
  cbn [bind is_None py_get]. rewrite Hp. cbn [bind py_get]. rewrite Ht.
  cbn [py_truthy py_getitem nth_error bind py_get].
  rewrite Hd. cbn [bind py_get]. rewrite Hi. cbn [bind py_get].
  rewrite Hdet. cbn [bind py_get]. rewrite Hv. cbn [bind].
  unfold py_float_opt.
  destruct v; try (cbn [is_None]; rewrite Hf; reflexivity).
  discriminate Hf.
Qed.

(** X3. A forecast without entries is no error: when the payload is an
    object whose [properties] or whose [timeseries] is missing, or whose
    [timeseries] is the empty list, the coverage is absent. *)
Theorem cloud_reader_no_forecast
    (w : world) (lat lon : float) (fields : list (string * json)) :
  http_get w (MET_URL lat lon) = Ok (JObj fields) ->
  (assoc "properties" fields = None
   \/ exists props,
       assoc "properties" fields = Some (JObj props)
       /\ (assoc "timeseries" props = None
           \/ assoc "timeseries" props = Some (JArr []))) ->
  fetch_cloud_coverage w lat lon = Ok None.
Proof.
  intros Hget H. unfold fetch_cloud_coverage, fetch_json. rewrite Hget.
  cbn [bind is_None py_get].
  destruct H as [-> | (props & -> & H)]; [reflexivity|].
  cbn [bind py_get]. destruct H as [-> | ->]; reflexivity.
Qed.

(** X4. A first entry without a coverage is no error: when the value
    under [cloud_area_fraction] is missing or is [null], the coverage is
    absent. *)
Theorem cloud_reader_null_fraction
    (w : world) (lat lon : float) (fields props first d i det : list (string * json))
    (rest : list json) :
  http_get w (MET_URL lat lon) = Ok (JObj fields) ->
  assoc "properties" fields = Some (JObj props) ->
  assoc "timeseries" props = Some (JArr (JObj first :: rest)) ->
  assoc "data" first = Some (JObj d) ->
  assoc "instant" d = Some (JObj i) ->
  assoc "details" i = Some (JObj det) ->
  get_or_none "cloud_area_fraction" det = JNull ->
  fetch_cloud_coverage w lat lon = Ok None.
Proof.
  intros Hget Hp Ht Hd Hi Hdet Hv.
  unfold fetch_cloud_coverage, fetch_json. rewrite Hget.
  cbn [bind is_None py_get]. rewrite Hp. cbn [bind py_get]. rewrite Ht.
  cbn [py_truthy py_getitem nth_error bind py_get].
  rewrite Hd. cbn [bind py_get]. rewrite Hi. cbn [bind py_get].
  rewrite Hdet. cbn [bind py_get].
  unfold get_or_none in Hv. rewrite Hv. reflexivity.
Qed.

(** X5. The two fields of the solar-wind summary are read one by one: a
    field that is missing or [null] is absent and leaves the other as it
    is. *)
Theorem solar_wind_reads_each_field
    (w : world) (fields : list (string * json)) (bz bt : option float) :
  http_get w SOLAR_WIND_URL = Ok (JObj fields) ->
  py_float_opt (get_or_none "Bz" fields) = Ok bz ->
  py_float_opt (get_or_none "Bt" fields) = Ok bt ->
  fetch_solar_wind w = Ok (bz, bt).
Proof.
  intros Hget Hbz Hbt. unfold fetch_solar_wind, fetch_json. rewrite Hget.
  cbn [bind is_None py_get]. fold (get_or_none "Bz" fields).
  fold (get_or_none "Bt" fields). rewrite Hbz. cbn [bind]. rewrite Hbt.
  reflexivity.
Qed.

(** X6. A field of the solar-wind summary that is present but is not a
    number costs both: when [float] raises on [Bz] or on [Bt], the reader
    returns two absences, whatever the other field holds. *)
Theorem solar_wind_bad_field_drops_both
    (w : world) (fields : list (string * json)) (e : exn) :
  http_get w SOLAR_WIND_URL = Ok (JObj fields) ->
  py_float_opt (get_or_none "Bz" fields) = Raise e
  \/ py_float_opt (get_or_none "Bt" fields) = Raise e ->
  fetch_solar_wind w = Ok (None, None).
Proof.
  intros Hget H. unfold fetch_solar_wind, fetch_json. rewrite Hget.
  cbn [bind is_None py_get]. fold (get_or_none "Bz" fields).
  fold (get_or_none "Bt" fields).
  destruct H as [H | H].
  - rewrite H. reflexivity.
  - destruct (py_float_opt (get_or_none "Bz" fields)); [|reflexivity].
    cbn [bind]. rewrite H. reflexivity.
Qed.

Lemma ovation_loop_app (target_lat target_lon : Z) (good : list json) :
  forall cells more point regional,
    decode_grid good = Some cells ->
    ovation_loop target_lat target_lon (good ++ more) point regional
    = ovation_loop target_lat target_lon more
        (match exact_match target_lat target_lon cells with
         | Some v => Some v
         | None => point
         end)
        (regional
           ++ map cell_value (filter (in_window target_lat target_lon) cells))%list.
Proof.
  induction good as [|coord rest IH]; intros cells more point regional Hd.
  - injection Hd as <-. cbn. now rewrite app_nil_r.
  - cbn [decode_grid] in Hd.
    destruct (decode_cell coord) as [c|] eqn:Hc; [|discriminate].
    destruct (decode_grid rest) as [cs|] eqn:Hcs; [|discriminate].
    injection Hd as <-.
    destruct coord as [ | | | | | items | ]; try discriminate.
    destruct items as [|lon [|lat [|v others]]]; try discriminate.
    cbn [decode_cell] in Hc.
    destruct (num_of_json lon) as [x|] eqn:Hx; [|discriminate].
    destruct (num_of_json lat) as [y|] eqn:Hy; [|discriminate].
    destruct (py_float v) as [f|e] eqn:Hf; [|discriminate].
    injection Hc as <-.
    cbn [app ovation_loop py_getitem nth_error bind].
    unfold py_eq_int, py_between, py_int_le, py_le_int. rewrite Hx, Hy, Hf.
    cbn [bind exact_match filter in_window at_target cell_value snd].
    destruct (py_eq y (PyInt target_lat) && py_eq x (PyInt target_lon));
      cbn [bind];
      destruct (py_le (PyInt (target_lon - 1)) x); cbn [bind andb];
      try destruct (py_le x (PyInt (target_lon + 1))); cbn [bind andb];
      try destruct (py_le (PyInt (target_lat - 1)) y); cbn [bind andb];
      try destruct (py_le y (PyInt (target_lat + 1))); cbn [bind andb];
      rewrite (IH cs) by reflexivity;
      destruct (exact_match target_lat target_lon cs);
      cbn [map cell_value snd]; rewrite <- ?app_assoc; reflexivity.
Qed.

Lemma short_cell_raises (target_lat target_lon : Z) (coord : json)
    (rest : list json) (point : option float) (regional : list float) :
  short_cell coord ->
  ovation_loop target_lat target_lon (coord :: rest) point regional
  = Raise IndexError.
Proof.
  intros (items & -> & Hlen).
  destruct items as [|a [|b [|c others]]]; cbn in Hlen; try lia; reflexivity.
Qed.

(** X7. One malformed grid entry costs the whole grid: when an entry
    with fewer than three items follows well-formed cells, the reader
    returns two absences, also when a cell before it lies on the
    target. *)
Theorem ovation_reader_short_cell_drops_all
    (w : world) (lat lon : float) (fields : list (string * json))
    (good rest : list json) (bad : json) (cells : list cell) :
  http_get w OVATION_URL = Ok (JObj fields) ->
  assoc "coordinates" fields = Some (JArr (good ++ bad :: rest)) ->
  decode_grid good = Some cells ->
  short_cell bad ->
  fetch_ovation_data w lat lon = Ok (None, None).
Proof.
  intros Hget Hc Hd Hbad. unfold fetch_ovation_data, fetch_json. rewrite Hget.
  cbn [bind is_None]. unfold parse_ovation. cbn [py_get bind]. rewrite Hc.
  destruct (py_round lat) as [tlat|e]; [|reflexivity].
  destruct (py_round lon) as [tlon|e]; [|reflexivity].
  cbn [bind py_iter].
  rewrite (ovation_loop_app tlat tlon good cells (bad :: rest) None [] Hd).
  rewrite (short_cell_raises _ _ bad rest _ _ Hbad). reflexivity.
Qed.

(** X8. A target that is not a finite number gives two absences on
    every payload: [round] raises on NaN and on the infinities, inside
    the [try]. *)
Theorem ovation_reader_needs_finite_target
    (w : world) (lat lon : float) (data : json) :
  http_get w OVATION_URL = Ok data ->
  fl_finite lat = false \/ fl_finite lon = false ->
  fetch_ovation_data w lat lon = Ok (None, None).
Proof.
  intros Hget H. unfold fetch_ovation_data, fetch_json. rewrite Hget.
  cbn [bind]. destruct (is_None data); [reflexivity|].
  unfold parse_ovation.
  destruct (py_get data "coordinates" (JArr [])) as [coords|e]; [|reflexivity].
  cbn [bind].
  destruct H as [H | H].
  - destruct lat; try discriminate H; reflexivity.
  - destruct (py_round lat) as [tlat|e]; [|reflexivity]. cbn [bind].
    destruct lon; try discriminate H; reflexivity.
Qed.

Lemma py_eq_int_between (v : json) (t : Z) :
  py_eq_int v t = true -> py_between (t - 1) v (t + 1) = Ok true.
Proof.
  unfold py_eq_int, py_between, py_int_le, py_le_int.
  destruct (num_of_json v) as [x|]; [|discriminate].
  unfold py_eq, py_le, num_cmp. cbn [num_val bind].
  destruct (num_val x) as [[ | q | ]|]; cbn [ereal_compare]; try discriminate.
  intros H.
  assert (E : (q == inject_Z t)%Q)
    by (destruct (Qcompare_spec q (inject_Z t)); try discriminate; assumption).
  assert (L0 : (inject_Z (t - 1) < inject_Z t)%Q) by (rewrite <- Zlt_Qlt; lia).
  assert (U0 : (inject_Z t < inject_Z (t + 1))%Q) by (rewrite <- Zlt_Qlt; lia).
  assert (L : (inject_Z (t - 1) ?= q)%Q = Lt)
    by (apply -> Qlt_alt; rewrite E; exact L0).
  assert (U : (q ?= inject_Z (t + 1))%Q = Lt)
    by (apply -> Qlt_alt; rewrite E; exact U0).
  rewrite L. cbn [bind]. rewrite U. reflexivity.
Qed.

Lemma ovation_loop_keeps_region (target_lat target_lon : Z) (coords : list json) :
  forall point regional point' regional',
    point = None \/ regional <> [] ->
    ovation_loop target_lat target_lon coords point regional
    = Ok (point', regional') ->
    point' = None \/ regional' <> [].
Proof.
  induction coords as [|coord rest IH]; intros point regional point' regional' I H.
  - injection H as <- <-. exact I.
  - cbn [ovation_loop] in H.
    destruct (py_getitem coord 0) as [coord_lon|e]; [|discriminate H].
    destruct (py_getitem coord 1) as [coord_lat|e]; [|discriminate H].
    destruct (py_getitem coord 2) as [aurora|e]; [|discriminate H].
    cbn [bind] in H.
    destruct (py_eq_int coord_lat target_lat && py_eq_int coord_lon target_lon)
      eqn:E.
    + apply andb_prop in E. destruct E as [Elat Elon].
      rewrite (py_eq_int_between _ _ Elon), (py_eq_int_between _ _ Elat) in H.
      destruct (py_float aurora) as [f|e]; [|discriminate H].
      cbn [bind] in H. apply IH in H; [exact H|].
      right. intros C. apply app_eq_nil in C. destruct C as [_ C]. discriminate C.
    + cbn [bind] in H.
      destruct (py_between (target_lon - 1) coord_lon (target_lon + 1))
        as [in_lon|e]; [|discriminate H].
      cbn [bind] in H.
      destruct (if in_lon
                then py_between (target_lat - 1) coord_lat (target_lat + 1)
                else Ok false) as [in_region|e]; [|discriminate H].
      cbn [bind] in H. destruct in_region.
      * destruct (py_float aurora) as [f|e]; [|discriminate H].
        cbn [bind] in H. apply IH in H; [exact H|].
        right. intros C. apply app_eq_nil in C. destruct C as [_ C].
        discriminate C.
      * cbn [bind] in H. apply IH in H; assumption.
Qed.

(** X9. Whatever the payload, a point probability never comes without a
    regional average: a cell on the rounded target lies in the window
    around it. *)
Theorem ovation_point_implies_region
    (w : world) (lat lon p : float) (region : option float) :
  fetch_ovation_data w lat lon = Ok (Some p, region) ->
  exists average, region = Some average.
Proof.
  unfold fetch_ovation_data.
  destruct (fetch_json w OVATION_URL) as [data|e]; [|discriminate].
  cbn [bind]. destruct (is_None data); [discriminate|].
  destruct (parse_ovation data lat lon) as [[point r]|e] eqn:P; [|discriminate].
  cbn [try_except]. intros [= -> ->].
  unfold parse_ovation in P.
  destruct (py_get data "coordinates" (JArr [])) as [coords|e]; [|discriminate P].
  cbn [bind] in P.
  destruct (py_round lat) as [tlat|e]; [|discriminate P]. cbn [bind] in P.
  destruct (py_round lon) as [tlon|e]; [|discriminate P]. cbn [bind] in P.
  destruct (py_iter coords) as [items|e]; [|discriminate P]. cbn [bind] in P.
  destruct (ovation_loop tlat tlon items None []) as [[point' values]|e] eqn:L;
    [|discriminate P].
  cbn [bind] in P. injection P as -> <-.
  apply ovation_loop_keeps_region in L; [|now left].
  destruct L as [L | L]; [discriminate L|].
  unfold regional_average. destruct values; [contradiction|]. eauto.
Qed.


(* ================================================================= *)
(** * Further properties of the indicator and the traffic light *)

(** X11. The indicator always has at most one decimal: it equals, as a
    number, the double nearest to [n / 10] for an integer [n] from 0 to
    1000, on every input. *)
Theorem indicator_has_one_decimal (p clouds : option float) :
  exists n : Z,
    0 <= n <= 1000
    /\ py_eq (calculate_aurora_indicator p clouds)
             (PyFloat (fl_round false (inject_Z n / 10))) = true.
Proof.
  destruct p as [p|]; [|exists 0; split; [lia | vm_compute; reflexivity]].
  rewrite indicator_unfold.
  set (r := fl_mul p (visibility_multiplier clouds)).
  destruct (fl_is_nan r) eqn:N.
  - destruct r; try discriminate N. rewrite clamp_round_nan.
    exists 1000. split; [lia | vm_compute; reflexivity].
  - pose proof (fl_mul_tame _ _ N) as T. fold r in T.
    destruct (clamp_round_cases r T) as [[C ->] | [[C ->] | [C ->]]].
    + exists 1000. split; [lia | vm_compute; reflexivity].
    + exists 0. split; [lia | vm_compute; reflexivity].
    + rewrite fl_round1_pos by assumption.
      exists (rne (key r * 10)). split.
      * split.
        -- apply (rne_ge_Z _ 0). unfold inject_Z. lra.
        -- apply (rne_le_Z _ 1000). unfold inject_Z. lra.
      * apply py_eq_refl_tame. apply fl_round_tame.
Qed.

(** X12. Under a full cover the indicator is zero: for a probability
    between 0 and 100 and a finite coverage of 100 or more, the result
    is the [int] 0. *)
Theorem indicator_zero_under_full_cover (p c : float) :
  prob_in_range p -> finite_binary64 c ->
  py_le (PyInt 100) (PyFloat c) = true ->
  calculate_aurora_indicator (Some p) (Some c) = PyInt 0.
Proof.
  intros R Hc H100.
  destruct (prob_range p R) as (Fp & Tp & Bp).
  destruct (finite_binary64_tame c Hc) as [Tc Kc].
  assert (T50 : ntame (PyInt 50)) by (apply ntame_small; lia).
  assert (T100 : ntame (PyInt 100)) by (apply ntame_small; lia).
  apply py_le_key in H100; [|assumption..]. cbn [nkey] in H100.
  rewrite Kc in H100. unfold inject_Z in H100.
  assert (E : py_le (PyFloat c) (PyInt 50) = false).
  { apply py_le_false_key; [assumption..|]. cbn [nkey]. rewrite Kc.
    unfold inject_Z. lra. }
  destruct (visibility_formula c Hc E) as (Hu & Hv & zs & Ev).
  set (u := fl_round false (100 - F2Q c)) in *.
  assert (U : (F2Q u <= 0)%Q).
  { rewrite <- (finite_key u Hu).
    pose proof (fl_round_key_mono false false (100 - F2Q c) 0 ltac:(lra)) as M.
    exact M. }
  assert (V : (F2Q (visibility_multiplier (Some c)) <= 0)%Q).
  { rewrite <- (finite_key _ Hv), Ev.
    pose proof (fl_round_key_mono zs false (F2Q u / 50) 0) as M.
    apply M. apply Qle_shift_div_r; [reflexivity | lra]. }
  rewrite indicator_unfold, fl_mul_finite by assumption.
  apply clamp_round_nonpos; [apply fl_round_tame|].
  pose proof (fl_round_key_mono
                (xorb (fl_sign p) (fl_sign (visibility_multiplier (Some c)))) false
                (F2Q p * F2Q (visibility_multiplier (Some c))) 0) as M.
  apply M. nra.
Qed.

(** X13. Clouds never raise the indicator: for a probability between 0
    and 100 and a finite coverage the result is at most the result
    without a coverage, and it is the same result when the coverage is
    at most 50. *)
Theorem indicator_clouds_never_help (p c : float) :
  prob_in_range p -> finite_binary64 c ->
  py_le (calculate_aurora_indicator (Some p) (Some c))
        (calculate_aurora_indicator (Some p) None) = true
  /\ (py_le (PyFloat c) (PyInt 50) = true ->
      calculate_aurora_indicator (Some p) (Some c)
      = calculate_aurora_indicator (Some p) None).
Proof.
  intros R Hc. split.
  - destruct (prob_range p R) as (Fp & Tp & Bp).
    pose proof (visibility_le_one c Hc) as V.
    pose proof (visibility_finite c Hc) as Fv.
    rewrite (finite_key _ Fv) in V.
    assert (F1 : fl_finite (visibility_multiplier None) = true)
      by (rewrite (fl_1 : visibility_multiplier None = _); reflexivity).
    assert (K1 : (F2Q (visibility_multiplier None) == 1)%Q)
      by (rewrite <- (finite_key _ F1); exact key_fl_1).
    rewrite !indicator_unfold, !fl_mul_finite by assumption.
    apply clamp_round_mono; try apply fl_round_tame.
    apply fl_round_key_mono. rewrite K1. nra.
  - intros H. unfold calculate_aurora_indicator. now rewrite H.
Qed.

Lemma py_ge_mono (s1 s2 n : num) :
  py_le s1 s2 = true -> py_ge s1 n = true -> py_ge s2 n = true.
Proof.
  unfold py_le, py_ge, num_cmp.
  destruct (num_val s1) as [[ | a | ]|], (num_val s2) as [[ | b | ]|],
    (num_val n) as [[ | c | ]|];
    cbn [ereal_compare]; try discriminate; try reflexivity.
  destruct (Qcompare_spec a b), (Qcompare_spec a c), (Qcompare_spec b c);
    try discriminate; try reflexivity; intros _ _; exfalso; lra.
Qed.

(** X14. The traffic light is monotone: a score that is at least
    another, as Python compares them, never gets a lower class. *)
Theorem traffic_light_monotone (s1 s2 : num) :
  py_le s1 s2 = true ->
  (light_rank (calculate_traffic_light s1)
   <= light_rank (calculate_traffic_light s2))%nat.
Proof.
  intros H. unfold calculate_traffic_light.
  pose proof (py_ge_mono s1 s2 (PyInt 50) H) as M50.
  pose proof (py_ge_mono s1 s2 (PyInt 25) H) as M25.
  pose proof (py_ge_mono s1 s2 (PyInt 10) H) as M10.
  destruct (py_ge s1 (PyInt 50)); [rewrite (M50 eq_refl); cbn; lia|].
  destruct (py_ge s1 (PyInt 25)).
  - rewrite (M25 eq_refl). destruct (py_ge s2 (PyInt 50)); cbn; lia.
  - destruct (py_ge s1 (PyInt 10)).
    + rewrite (M10 eq_refl).
      destruct (py_ge s2 (PyInt 50)); [cbn; lia|].
      destruct (py_ge s2 (PyInt 25)); cbn; lia.
    + destruct (py_ge s2 (PyInt 50)); [cbn; lia|].
      destruct (py_ge s2 (PyInt 25)); [cbn; lia|].
      destruct (py_ge s2 (PyInt 10)); cbn; lia.
Qed.

(* ================================================================= *)
(** * Further properties of the badges, the gate and [main] *)

Lemma In_badge_colors (c : string) :
  c = "red" \/ c = "yellow" \/ c = "green" \/ c = "gray" -> In c badge_colors.
Proof.
  unfold badge_colors. cbn [In]. intros [-> | [-> | [-> | ->]]]; tauto.
Qed.

(** X15. A badge never carries a color outside red, yellow, green and
    gray: every file [write_badges] writes for the traffic light of an
    indicator is a badge object with one of the four, "black" being
    written as "gray". *)
Theorem badges_use_four_colors
    (indicator : num) (aurora_prob clouds kp bz bt : option float)
    (path : string) (content : json) :
  In (WriteFile path content)
     (write_badges (calculate_traffic_light indicator) aurora_prob clouds kp bz bt) ->
  exists label message color,
    content = generate_badge label message color /\ In color badge_colors.
Proof.
  unfold write_badges. cbn [map In fst snd].
  intros [H | [H | [H | [H | [H | [H | [H | []]]]]]]]; try discriminate H;
    injection H as _ <-.
  - unfold get_recommendation_badge.
    pose proof (traffic_light_total indicator) as T. cbn [In] in T.
    destruct T as [<- | [<- | [<- | [<- | []]]]];
      eexists _, _, _; (split; [reflexivity|]); apply In_badge_colors; cbn; tauto.
  - unfold get_aurora_probability_badge. destruct aurora_prob as [x|];
      [destruct (py_ge (PyFloat x) (PyInt 50));
       [|destruct (py_ge (PyFloat x) (PyInt 25));
         [|destruct (py_ge (PyFloat x) (PyInt 10))]]|];
      eexists _, _, _; (split; [reflexivity|]); apply In_badge_colors; tauto.
  - unfold get_cloud_coverage_badge. destruct clouds as [x|];
      [destruct (py_le (PyFloat x) (PyInt 25));
       [|destruct (py_le (PyFloat x) (PyInt 50));
         [|destruct (py_le (PyFloat x) (PyInt 75))]]|];
      eexists _, _, _; (split; [reflexivity|]); apply In_badge_colors; tauto.
  - unfold get_kp_index_badge. destruct kp as [x|];
      [destruct (py_ge (PyFloat x) (PyInt 5));
       [|destruct (py_ge (PyFloat x) (PyInt 3));
         [|destruct (py_ge (PyFloat x) (PyInt 2))]]|];
      eexists _, _, _; (split; [reflexivity|]); apply In_badge_colors; tauto.
  - unfold get_bz_badge. destruct bz as [x|];
      [destruct (py_le (PyFloat x) (PyInt (-10)));
       [|destruct (py_le (PyFloat x) (PyInt (-5)));
         [|destruct (py_lt (PyFloat x) (PyInt 0))]]|];
      eexists _, _, _; (split; [reflexivity|]); apply In_badge_colors; tauto.
  - unfold get_bt_badge. destruct bt as [x|];
      [destruct (py_ge (PyFloat x) (PyInt 20));
       [|destruct (py_ge (PyFloat x) (PyInt 10));
         [|destruct (py_ge (PyFloat x) (PyInt 5))]]|];
      eexists _, _, _; (split; [reflexivity|]); apply In_badge_colors; tauto.
Qed.


Lemma lex_compare_le_lt_trans (a : list Z) :
  forall b c,
    lex_compare a b <> Gt -> lex_compare b c = Lt -> lex_compare a c = Lt.
Proof.
  induction a as [|x a IH]; intros [|y b] [|z c]; cbn [lex_compare];
    intros H1 H2; try discriminate H2; try reflexivity; try congruence.
  destruct (Z.compare_spec x y), (Z.compare_spec y z), (Z.compare_spec x z);
    subst; try lia; try discriminate H2; try congruence; try reflexivity.
  eapply IH; eassumption.
Qed.

Lemma lex_compare_refl (a : list Z) : lex_compare a a = Eq.
Proof.
  induction a as [|x a IH]; [reflexivity|].
  cbn [lex_compare]. now rewrite Z.compare_refl.
Qed.

Lemma window_skip_when_empty (now s e : datetime) :
  datetime_lt e s = true ->
  exists line, window_skip now (Some s) (Some e) = Some line.
Proof.
  intros H. unfold window_skip. cbn [is_some orb].
  destruct (datetime_lt now s) eqn:A; [eauto|].
  destruct (datetime_gt now e) eqn:B; [eauto|].
  exfalso. unfold datetime_lt, datetime_gt, datetime_compare in *.
  assert (L : lex_compare (datetime_key now) (datetime_key s) = Lt).
  { apply (lex_compare_le_lt_trans _ (datetime_key e)).
    - intros C. rewrite C in B. discriminate B.
    - destruct (lex_compare (datetime_key e) (datetime_key s));
        try discriminate H; reflexivity. }
  rewrite L in A. discriminate A.
Qed.

(** X17. A window that ends before it starts never lets a notification
    through: with both bounds given and the end before the start, no
    POST is made at any time. *)
Theorem gate_empty_window_never_sends
    (w : world) (location_name : string) (indicator : num)
    (aurora_prob clouds : option float) (traffic_light : string)
    (start stop : datetime) :
  datetime_lt stop start = true ->
  posts (fst (send_pushover_notification w location_name indicator aurora_prob
                clouds traffic_light (Some start) (Some stop))) = 0%nat.
Proof.
  intros H. unfold send_pushover_notification.
  destruct (negb (env_truthy (environ w "GITHUB_ACTIONS"))); [reflexivity|].
  destruct (negb (env_truthy (environ w "PUSHOVER_TOKEN"))
            || negb (env_truthy (environ w "PUSHOVER_USER"))); [reflexivity|].
  destruct (window_skip_when_empty (datetime_now w) start stop H) as [line ->].
  reflexivity.
Qed.

(** X18. The bounds of the window belong to it: a run at the very
    instant that is both the start and the end of the window, with the
    other three guards holding, makes its one POST. *)
Theorem gate_window_bounds_inclusive
    (w : world) (location_name : string) (indicator : num)
    (aurora_prob clouds : option float) (traffic_light : string) :
  flag_set w = true -> credentials_present w = true ->
  class_notifies traffic_light = true ->
  posts (fst (send_pushover_notification w location_name indicator aurora_prob
                clouds traffic_light
                (Some (datetime_now w)) (Some (datetime_now w)))) = 1%nat.
Proof.
  unfold flag_set, credentials_present, class_notifies.
  intros F C L. unfold send_pushover_notification. rewrite F. cbn [negb].
  apply andb_prop in C. destruct C as [-> ->]. cbn [negb orb].
  unfold window_skip, datetime_lt, datetime_gt, datetime_compare.
  cbn [is_some orb]. rewrite lex_compare_refl. rewrite L. cbn [negb].
  destruct (http_post w) as [status|e];
    [destruct (status =? 200)%Z | destruct (is_URLError e)]; reflexivity.
Qed.






(** X20. The snapshot is consistent with itself: its indicator is the
    indicator of its own point probability and cloud coverage, its
    traffic light is the class of that indicator, its time is the time of
    the run, and its keys are the eleven keys in their order. *)
Theorem snapshot_is_self_consistent
    (a : args) (w : world) (snapshot : json) (rest : list event) :
  fst (main a w) = WriteFile (arg_output a) snapshot :: rest ->
  exists fields point clouds,
    snapshot = JObj fields
    /\ map fst fields = snapshot_keys
    /\ assoc "last-update" fields = Some (JInt (time_time w))
    /\ assoc "aurora-probability" fields = Some (json_of_opt_float point)
    /\ assoc "cloud-coverage" fields = Some (json_of_opt_float clouds)
    /\ assoc "aurora-indicator" fields
       = Some (json_of_num (calculate_aurora_indicator point clouds))
    /\ assoc "aurora-traffic-light" fields
       = Some (JStr (calculate_traffic_light
                       (calculate_aurora_indicator point clouds))).
Proof.
  unfold main.
  destruct (fetch_cloud_coverage w (arg_lat a) (arg_lon a)) as [clouds|e];
    [|discriminate].
  destruct (fetch_ovation_data w (arg_lat a) (arg_lon a)) as [[point region]|e];
    [|discriminate].
  destruct (fetch_kp_indices w) as [[[kp k3] k6]|e]; [|discriminate].
  destruct (fetch_solar_wind w) as [[bz bt]|e]; [|discriminate].
  destruct (send_pushover_notification _ _ _ _ _ _ _ _) as [sent r].
  cbn [fst app]. intros [= <- _].
  eexists _, point, clouds. repeat split; reflexivity.
Qed.









(** X22. The probability badge and the traffic light agree on their
    thresholds: the badge of a probability has the color that the
    recommendation badge has for the traffic light of the same number. *)
Theorem probability_badge_matches_traffic_light (p : float) :
  badge_color (get_aurora_probability_badge (Some p))
  = badge_color (get_recommendation_badge (calculate_traffic_light (PyFloat p))).
Proof.
  unfold get_aurora_probability_badge, calculate_traffic_light.
  destruct (py_ge (PyFloat p) (PyInt 50)); [reflexivity|].
  destruct (py_ge (PyFloat p) (PyInt 25)); [reflexivity|].
  destruct (py_ge (PyFloat p) (PyInt 10)); reflexivity.
Qed.

End Program.

(* ================================================================= *)
(** * Concrete runs *)

(** C6. A cloud forecast whose body is not valid UTF-8 ends the run with
    the exception, before the snapshot is written: [fetch_json] catches
    [URLError] and [JSONDecodeError] only. *)
Theorem main_aborts_on_undecodable_body :
  main reject_all example_args undecodable_world = ([], Raise UnicodeDecodeError)
  /\ filter is_write (fst (main reject_all example_args undecodable_world)) = []
  /\ exists snapshot rest,
       fst (main reject_all example_args example_world)
       = WriteFile "current_observation_oulu.json" snapshot :: rest.
Proof.
  split; [vm_compute; reflexivity|]. split; [vm_compute; reflexivity|].
  eexists _, _. vm_compute. reflexivity.
Qed.

Lemma indicator_as_specified_witness :
  fl_is_nan (fl_mul (fl_of_Z 40) (visibility_multiplier (Some (fl_of_Z 75)))) = false
  /\ py_eq (calculate_aurora_indicator (Some (fl_of_Z 40)) (Some (fl_of_Z 75)))
           (PyFloat (score_spec (fl_of_Z 40) (Some (fl_of_Z 75)))) = true.
Proof.
  assert (N : fl_is_nan (fl_mul (fl_of_Z 40) (visibility_multiplier (Some (fl_of_Z 75))))
              = false) by (vm_compute; reflexivity).
  exact (conj N (proj2 (proj2 (indicator_as_specified (fl_of_Z 40)
                                 (Some (fl_of_Z 75)))) N)).
Defined.

Lemma traffic_light_bands_witness :
  num_val (PyInt 25) = Some (Fin (inject_Z 25))
  /\ ((calculate_traffic_light (PyInt 25) = "red" <-> (50 <= inject_Z 25)%Q)
      /\ (calculate_traffic_light (PyInt 25) = "yellow" <-> (25 <= inject_Z 25 < 50)%Q)
      /\ (calculate_traffic_light (PyInt 25) = "green" <-> (10 <= inject_Z 25 < 25)%Q)
      /\ (calculate_traffic_light (PyInt 25) = "black" <-> (inject_Z 25 < 10)%Q)).
Proof.
  split; [reflexivity|].
  apply (traffic_light_bands (PyInt 25) (inject_Z 25)). reflexivity.
Defined.

Lemma example_rows_are_table_rows : Forall (table_row reject_all) example_kp_rows.
Proof.
  unfold example_kp_rows.
  repeat (apply Forall_cons; [apply table_row_int; vm_compute; reflexivity|]).
  apply Forall_nil.
Defined.

Lemma kp_reader_last_observed_witness :
  http_get example_world KP_FORECAST_URL = Ok (JArr (example_header :: example_kp_rows))
  /\ Forall (table_row reject_all) example_kp_rows
  /\ fetch_kp_indices reject_all example_world
     = Ok (Some (fl_of_Z 4), Some (fl_of_Z 5), Some (fl_of_Z 6)).
Proof.
  refine (conj eq_refl (conj example_rows_are_table_rows _)).
  destruct (kp_reader_last_observed reject_all example_world example_header
              example_kp_rows eq_refl example_rows_are_table_rows)
    as (H & _ & E).
  rewrite H, E. reflexivity.
Defined.

Lemma ovation_reader_point_and_region_witness :
  http_get example_world OVATION_URL = Ok (JObj [("coordinates", JArr example_grid)])
  /\ assoc "coordinates" [("coordinates", JArr example_grid)] = Some (JArr example_grid)
  /\ decode_grid reject_all example_grid = Some example_cells
  /\ fl_finite example_lat = true /\ fl_finite example_lon = true
  /\ fetch_ovation_data reject_all example_world example_lat example_lon
     = Ok (Some (fl_of_Z 40), Some (fl_of_Z 30)).
Proof.
  assert (D : decode_grid reject_all example_grid = Some example_cells)
    by (vm_compute; reflexivity).
  assert (Flat : fl_finite example_lat = true) by (vm_compute; reflexivity).
  assert (Flon : fl_finite example_lon = true) by (vm_compute; reflexivity).
  refine (conj eq_refl (conj eq_refl (conj D (conj Flat (conj Flon _))))).
  destruct (ovation_reader_point_and_region reject_all example_world
              example_lat example_lon [("coordinates", JArr example_grid)]
              example_grid example_cells eq_refl eq_refl D Flat Flon)
    as (H & _ & E).
  rewrite H, E. reflexivity.
Defined.

Lemma indicator_monotone_witness :
  prob_in_range (fl_of_Z 20) /\ prob_in_range (fl_of_Z 40)
  /\ py_le (PyFloat (fl_of_Z 20)) (PyFloat (fl_of_Z 40)) = true
  /\ coverage_ok (Some (fl_of_Z 60))
  /\ finite_binary64 (fl_of_Z 60) /\ finite_binary64 (fl_of_Z 80)
  /\ py_le (PyFloat (fl_of_Z 60)) (PyFloat (fl_of_Z 80)) = true
  /\ (py_le (calculate_aurora_indicator (Some (fl_of_Z 20)) (Some (fl_of_Z 60)))
            (calculate_aurora_indicator (Some (fl_of_Z 40)) (Some (fl_of_Z 60))) = true
      /\ py_le (calculate_aurora_indicator (Some (fl_of_Z 20)) (Some (fl_of_Z 80)))
               (calculate_aurora_indicator (Some (fl_of_Z 20)) (Some (fl_of_Z 60)))
         = true).
Proof.
  assert (R20 : prob_in_range (fl_of_Z 20)) by (split; vm_compute; reflexivity).
  assert (R40 : prob_in_range (fl_of_Z 40)) by (split; vm_compute; reflexivity).
  assert (L : py_le (PyFloat (fl_of_Z 20)) (PyFloat (fl_of_Z 40)) = true)
    by (vm_compute; reflexivity).
  assert (C : coverage_ok (Some (fl_of_Z 60)))
    by (split; [vm_compute; reflexivity | vm_compute; discriminate]).
  assert (F60 : finite_binary64 (fl_of_Z 60)) by (split; vm_compute; reflexivity).
  assert (F80 : finite_binary64 (fl_of_Z 80)) by (split; vm_compute; reflexivity).
  assert (LC : py_le (PyFloat (fl_of_Z 60)) (PyFloat (fl_of_Z 80)) = true)
    by (vm_compute; reflexivity).
  exact (conj R20 (conj R40 (conj L (conj C (conj F60 (conj F80 (conj LC
           (indicator_monotone (fl_of_Z 20) (fl_of_Z 40) (Some (fl_of_Z 60))
              (fl_of_Z 60) (fl_of_Z 80) R20 R40 L C F60 F80 LC)))))))).
Defined.

Lemma snapshot_black_badge_gray_witness :
  arg_badges example_args = true
  /\ fst (main reject_all example_args example_world) <> []
  /\ exists fields indicator light badge rest,
       fst (main reject_all example_args example_world)
       = WriteFile (arg_output example_args) (JObj fields)
           :: MakeDirs "badges"
           :: WriteFile "badges/recommendation.json" badge
           :: rest
       /\ assoc "aurora-indicator" fields = Some (json_of_num indicator)
       /\ light = calculate_traffic_light indicator
       /\ assoc "aurora-traffic-light" fields = Some (JStr light)
       /\ ((light = "black"
            /\ badge = generate_badge "Current Status" "Definitely not" "gray")
           \/ (In light ["red"; "yellow"; "green"]
               /\ exists message,
                   badge = generate_badge "Current Status" message light)).
Proof.
  assert (N : fst (main reject_all example_args example_world) <> [])
    by (vm_compute; discriminate).
  split; [reflexivity|]. split; [exact N|].
  exact (snapshot_black_badge_gray reject_all example_args example_world eq_refl N).
Defined.

Lemma example_run_posts :
  In (HttpPost pushover_endpoint example_form)
     (fst (main reject_all example_args example_world)).
Proof. vm_compute. do 8 right. left. reflexivity. Defined.

Lemma notification_has_probability_witness :
  In (HttpPost pushover_endpoint example_form)
     (fst (main reject_all example_args example_world))
  /\ exists fields p clouds,
       In (WriteFile (arg_output example_args) (JObj fields))
          (fst (main reject_all example_args example_world))
       /\ assoc "aurora-probability" fields = Some (JFloat p)
       /\ assoc "cloud-coverage" fields = Some (json_of_opt_float clouds)
       /\ lookup "message" example_form = Some (notification_message (Some p) clouds).
Proof.
  split; [exact example_run_posts|].
  exact (proj1 (notification_has_probability reject_all example_args example_world
                  pushover_endpoint example_form example_run_posts)).
Defined.

Lemma kp_reader_drops_partial_result_witness :
  http_get partial_kp_world KP_FORECAST_URL
  = Ok (JArr (example_header :: partial_kp_rows))
  /\ Forall is_array partial_kp_rows
  /\ last_observed partial_kp_rows = Some 0%nat
  /\ kp_value reject_all (JArr partial_kp_rows) 0 = Ok (fl_of_Z 3)
  /\ (1 = 1 \/ 1 = 2)%nat
  /\ (0 + 1 < List.length partial_kp_rows)%nat
  /\ kp_value reject_all (JArr partial_kp_rows) (0 + 1) = Raise TypeError
  /\ fetch_kp_indices reject_all partial_kp_world = Ok (None, None, None).
Proof.
  assert (A : Forall is_array partial_kp_rows).
  { unfold partial_kp_rows.
    repeat (apply Forall_cons; [eexists; reflexivity|]). apply Forall_nil. }
  assert (Lt : (0 + 1 < List.length partial_kp_rows)%nat) by (cbn; lia).
  assert (Cur : kp_value reject_all (JArr partial_kp_rows) 0 = Ok (fl_of_Z 3))
    by (vm_compute; reflexivity).
  assert (Bad : kp_value reject_all (JArr partial_kp_rows) (0 + 1) = Raise TypeError)
    by reflexivity.
  exact (conj eq_refl (conj A (conj eq_refl (conj Cur (conj (or_introl eq_refl)
           (conj Lt (conj Bad
              (kp_reader_drops_partial_result reject_all partial_kp_world
                 example_header partial_kp_rows 0 1 (fl_of_Z 3) TypeError
                 eq_refl A eq_refl Cur (or_introl eq_refl) Lt Bad)))))))).
Defined.


Lemma readers_return_on_every_payload_witness :
  (forall u, source_degrades example_world u)
  /\ (exists r, fetch_cloud_coverage reject_all example_world example_lat example_lon
                = Ok r)
  /\ (exists r, fetch_ovation_data reject_all example_world example_lat example_lon
                = Ok r)
  /\ (exists r, fetch_kp_indices reject_all example_world = Ok r)
  /\ (exists r, fetch_solar_wind reject_all example_world = Ok r).
Proof.
  assert (D : forall u, source_degrades example_world u).
  { intros u. destruct u; cbn; try exact I; reflexivity. }
  exact (conj D (readers_return_on_every_payload reject_all example_world
                   example_lat example_lon D)).
Defined.

Lemma cloud_reader_first_entry_witness :
  http_get answering_world (MET_URL example_lat example_lon) = Ok example_forecast
  /\ py_float reject_all (JInt 75) = Ok (fl_of_Z 75)
  /\ fetch_cloud_coverage reject_all answering_world example_lat example_lon
     = Ok (Some (fl_of_Z 75)).
Proof.
  assert (F : py_float reject_all (JInt 75) = Ok (fl_of_Z 75))
    by (vm_compute; reflexivity).
  exact (conj eq_refl (conj F
           (cloud_reader_first_entry reject_all answering_world
              example_lat example_lon _ _ _ _ _ _ _ (JInt 75) (fl_of_Z 75)
              eq_refl eq_refl eq_refl eq_refl eq_refl eq_refl eq_refl F))).
Defined.

Lemma cloud_reader_no_forecast_witness :
  http_get (serving empty_forecast) (MET_URL example_lat example_lon)
  = Ok empty_forecast
  /\ fetch_cloud_coverage reject_all (serving empty_forecast) example_lat example_lon
     = Ok None.
Proof.
  refine (conj eq_refl
            (cloud_reader_no_forecast reject_all (serving empty_forecast)
               example_lat example_lon _ eq_refl
               (or_intror (ex_intro _ [("timeseries", JArr [])]
                             (conj eq_refl (or_intror eq_refl)))))).
Defined.

Lemma cloud_reader_null_fraction_witness :
  http_get (serving null_forecast) (MET_URL example_lat example_lon)
  = Ok null_forecast
  /\ fetch_cloud_coverage reject_all (serving null_forecast) example_lat example_lon
     = Ok None.
Proof.
  exact (conj eq_refl
           (cloud_reader_null_fraction reject_all (serving null_forecast)
              example_lat example_lon _ _ _ _ _ _ _
              eq_refl eq_refl eq_refl eq_refl eq_refl eq_refl eq_refl)).
Defined.

Lemma solar_wind_reads_each_field_witness :
  http_get answering_world SOLAR_WIND_URL = Ok example_solar_wind
  /\ fetch_solar_wind reads_six answering_world = Ok (None, Some (fl_of_Z 6)).
Proof.
  exact (conj eq_refl
           (solar_wind_reads_each_field reads_six answering_world
              _ None (Some (fl_of_Z 6)) eq_refl eq_refl eq_refl)).
Defined.

Lemma solar_wind_bad_field_drops_both_witness :
  http_get (serving bad_solar_wind) SOLAR_WIND_URL = Ok bad_solar_wind
  /\ py_float_opt reject_all (JStr "n/a") = Raise ValueError
  /\ fetch_solar_wind reject_all (serving bad_solar_wind) = Ok (None, None).
Proof.
  exact (conj eq_refl (conj eq_refl
           (solar_wind_bad_field_drops_both reject_all (serving bad_solar_wind)
              _ ValueError eq_refl (or_introl eq_refl)))).
Defined.

Lemma ovation_reader_short_cell_drops_all_witness :
  decode_grid reject_all example_grid = Some example_cells
  /\ short_cell (JArr [JInt 27; JInt 66])
  /\ fetch_ovation_data reject_all broken_grid_world example_lat example_lon
     = Ok (None, None).
Proof.
  assert (D : decode_grid reject_all example_grid = Some example_cells)
    by (vm_compute; reflexivity).
  assert (S : short_cell (JArr [JInt 27; JInt 66])).
  { exists [JInt 27; JInt 66]. split; [reflexivity | cbn; lia]. }
  exact (conj D (conj S
           (ovation_reader_short_cell_drops_all reject_all broken_grid_world
              example_lat example_lon _ example_grid [] (JArr [JInt 27; JInt 66])
              example_cells eq_refl eq_refl D S))).
Defined.

Lemma ovation_reader_needs_finite_target_witness :
  fl_finite S754_nan = false
  /\ fetch_ovation_data reject_all example_world S754_nan example_lon
     = Ok (None, None).
Proof.
  exact (conj eq_refl
           (ovation_reader_needs_finite_target reject_all example_world
              S754_nan example_lon _ eq_refl (or_introl eq_refl))).
Defined.

Lemma ovation_point_implies_region_witness :
  fetch_ovation_data reject_all example_world example_lat example_lon
  = Ok (Some (fl_of_Z 40), Some (fl_of_Z 30))
  /\ exists average, Some (fl_of_Z 30) = Some average.
Proof.
  assert (E : fetch_ovation_data reject_all example_world example_lat example_lon
              = Ok (Some (fl_of_Z 40), Some (fl_of_Z 30)))
    by (vm_compute; reflexivity).
  exact (conj E
           (ovation_point_implies_region reject_all example_world
              example_lat example_lon (fl_of_Z 40) (Some (fl_of_Z 30)) E)).
Defined.


Lemma indicator_zero_under_full_cover_witness :
  prob_in_range (fl_of_Z 40) /\ finite_binary64 (fl_of_Z 100)
  /\ py_le (PyInt 100) (PyFloat (fl_of_Z 100)) = true
  /\ calculate_aurora_indicator (Some (fl_of_Z 40)) (Some (fl_of_Z 100)) = PyInt 0.
Proof.
  assert (R : prob_in_range (fl_of_Z 40)) by (split; vm_compute; reflexivity).
  assert (F : finite_binary64 (fl_of_Z 100)) by (split; vm_compute; reflexivity).
  assert (L : py_le (PyInt 100) (PyFloat (fl_of_Z 100)) = true)
    by (vm_compute; reflexivity).
  exact (conj R (conj F (conj L
           (indicator_zero_under_full_cover (fl_of_Z 40) (fl_of_Z 100) R F L)))).
Defined.

Lemma indicator_clouds_never_help_witness :
  prob_in_range (fl_of_Z 40) /\ finite_binary64 (fl_of_Z 75)
  /\ py_le (calculate_aurora_indicator (Some (fl_of_Z 40)) (Some (fl_of_Z 75)))
           (calculate_aurora_indicator (Some (fl_of_Z 40)) None) = true.
Proof.
  assert (R : prob_in_range (fl_of_Z 40)) by (split; vm_compute; reflexivity).
  assert (F : finite_binary64 (fl_of_Z 75)) by (split; vm_compute; reflexivity).
  exact (conj R (conj F
           (proj1 (indicator_clouds_never_help (fl_of_Z 40) (fl_of_Z 75) R F)))).
Defined.

Lemma traffic_light_monotone_witness :
  py_le (PyInt 5) (PyFloat (fl_of_Z 30)) = true
  /\ (light_rank (calculate_traffic_light (PyInt 5))
      <= light_rank (calculate_traffic_light (PyFloat (fl_of_Z 30))))%nat.
Proof.
  assert (L : py_le (PyInt 5) (PyFloat (fl_of_Z 30)) = true)
    by (vm_compute; reflexivity).
  exact (conj L (traffic_light_monotone (PyInt 5) (PyFloat (fl_of_Z 30)) L)).
Defined.

Lemma badges_use_four_colors_witness :
  In (WriteFile "badges/recommendation.json"
        (get_recommendation_badge (calculate_traffic_light (PyInt 5))))
     (write_badges (calculate_traffic_light (PyInt 5)) None None None None None)
  /\ exists label message color,
       get_recommendation_badge (calculate_traffic_light (PyInt 5))
       = generate_badge label message color
       /\ In color badge_colors.
Proof.
  assert (I : In (WriteFile "badges/recommendation.json"
                    (get_recommendation_badge (calculate_traffic_light (PyInt 5))))
                 (write_badges (calculate_traffic_light (PyInt 5))
                    None None None None None))
    by (right; left; reflexivity).
  exact (conj I (badges_use_four_colors reject_all (PyInt 5) None None None None None _ _ I)).
Defined.

Lemma gate_empty_window_never_sends_witness :
  datetime_lt (mk_datetime 2026 2 1 6 0 0 0) (mk_datetime 2026 2 1 18 0 0 0) = true
  /\ posts (fst (send_pushover_notification example_world "Oulu" (PyInt 60)
                   (Some (fl_of_Z 60)) None "red"
                   (Some (mk_datetime 2026 2 1 18 0 0 0))
                   (Some (mk_datetime 2026 2 1 6 0 0 0)))) = 0%nat.
Proof.
  exact (conj eq_refl
           (gate_empty_window_never_sends example_world "Oulu" (PyInt 60)
              (Some (fl_of_Z 60)) None "red"
              (mk_datetime 2026 2 1 18 0 0 0) (mk_datetime 2026 2 1 6 0 0 0)
              eq_refl)).
Defined.

Lemma gate_window_bounds_inclusive_witness :
  flag_set example_world = true /\ credentials_present example_world = true
  /\ class_notifies "red" = true
  /\ posts (fst (send_pushover_notification example_world "Oulu" (PyInt 60)
                   (Some (fl_of_Z 60)) None "red"
                   (Some (datetime_now example_world))
                   (Some (datetime_now example_world)))) = 1%nat.
Proof.
  exact (conj eq_refl (conj eq_refl (conj eq_refl
           (gate_window_bounds_inclusive example_world "Oulu" (PyInt 60)
              (Some (fl_of_Z 60)) None "red" eq_refl eq_refl eq_refl)))).
Defined.

Lemma snapshot_is_self_consistent_witness :
  exists snapshot rest,
    fst (main reject_all example_args example_world)
    = WriteFile (arg_output example_args) snapshot :: rest
    /\ exists fields point clouds,
        snapshot = JObj fields
        /\ map fst fields = snapshot_keys
        /\ assoc "last-update" fields = Some (JInt (time_time example_world))
        /\ assoc "aurora-probability" fields = Some (json_of_opt_float point)
        /\ assoc "cloud-coverage" fields = Some (json_of_opt_float clouds)
        /\ assoc "aurora-indicator" fields
           = Some (json_of_num (calculate_aurora_indicator point clouds))
        /\ assoc "aurora-traffic-light" fields
           = Some (JStr (calculate_traffic_light
                           (calculate_aurora_indicator point clouds))).
Proof.
  assert (E : exists snapshot rest,
             fst (main reject_all example_args example_world)
             = WriteFile (arg_output example_args) snapshot :: rest)
    by (eexists _, _; vm_compute; reflexivity).
  destruct E as (snapshot & rest & E). exists snapshot, rest.
  exact (conj E (snapshot_is_self_consistent reject_all example_args example_world
                   snapshot rest E)).
Defined.

